(** * Liquidation heatmap fetcher: a model of [fetch_liquidations.py]

    The development follows the source file top to bottom: the leverage
    classifier, the three fetchers, the aggregation into price buckets and
    the driver loop of [main].  Python's [float] is kept abstract behind the
    class [PyFloat]; the instance [float64] is IEEE binary64, the arithmetic
    the interpreter runs, and [exactQc] is arithmetic without rounding. *)

From Stdlib Require Import ZArith QArith Qcanon Floats Ascii String.
From stdpp Require Import gmap strings list sorting.

Local Open Scope Z_scope.
#[local] Set Warnings "-register-all".

(** ** Python numbers *)

(** The operations the script applies to floats.  [fdiv], [of_int] and
    [trunc] return [None] where Python raises ([ZeroDivisionError],
    [OverflowError], [ValueError]). *)
Class PyFloat (F : Type) := {
  fadd : F -> F -> F;
  fsub : F -> F -> F;
  fmul : F -> F -> F;
  fdiv : F -> F -> option F;
  feqb : F -> F -> bool;
  fltb : F -> F -> bool;
  fleb : F -> F -> bool;
  fabs : F -> F;
  (** the value of a decimal literal such as [0.7] *)
  of_Q : Q -> F;
  (** [float(n)] for an [int] *)
  of_int : Z -> option F;
  (** [int(x)] *)
  trunc : F -> option Z;
  (** [round(x, 2)] *)
  round2 : F -> F
}.

(** The integer [0] the script starts its sums from compares and adds like
    the float zero, and is identified with it. *)
Definition fzero {F} `{PyFloat F} : F := of_Q 0.

(** Arithmetic without rounding: what the equalities between sums rely on. *)
Class ExactArith (F : Type) `{PyFloat F} : Prop := {
  fadd_assoc : forall x y z : F, fadd x (fadd y z) = fadd (fadd x y) z;
  fadd_comm : forall x y : F, fadd x y = fadd y x;
  fadd_0_l : forall x : F, fadd fzero x = x;
  feqb_eq : forall x y : F, feqb x y = true <-> x = y;
  fltb_irrefl : forall x : F, fltb x x = false;
  fltb_trans : forall x y z : F, fltb x y = true -> fltb y z = true -> fltb x z = true;
  fltb_total : forall x y : F, fltb x y = false -> fltb y x = false -> x = y
}.

(** *** Binary64 *)

Definition SF_of_Z (z : Z) : spec_float :=
  match z with
  | Z0 => S754_zero false
  | Zpos p => S754_finite false p 0
  | Zneg p => S754_finite true p 0
  end.

(** The binary64 value nearest to a rational (ties to even), as the
    interpreter reads literals and converts integers. *)
Definition float_of_Q (q : Q) : float :=
  SF2Prim (SF64div (SF_of_Z (Qnum q)) (SF_of_Z (Zpos (Qden q)))).

Definition float_div (x y : float) : option float :=
  if PrimFloat.eqb y PrimFloat.zero then None else Some (PrimFloat.div x y).

Definition float_of_int (z : Z) : option float :=
  let f := float_of_Q (inject_Z z) in
  if PrimFloat.is_infinity f then None else Some f.

Definition float_trunc (x : float) : option Z :=
  match Prim2SF x with
  | S754_zero _ => Some 0
  | S754_finite s m e =>
      let a := Z.shiftl (Zpos m) e in Some (if s then - a else a)
  | _ => None
  end.

(** [a / b] rounded to the nearest integer, ties to even ([0 < b]). *)
Definition round_half_even (a b : Z) : Z :=
  let (d, r) := Z.div_eucl a b in
  match 2 * r ?= b with
  | Lt => d
  | Gt => d + 1
  | Eq => if Z.even d then d else d + 1
  end.

Definition float_round2 (x : float) : float :=
  match Prim2SF x with
  | S754_finite s m e =>
      let n := if 0 <=? e then 100 * Z.shiftl (Zpos m) e
               else round_half_even (100 * Zpos m) (Z.shiftl 1 (- e)) in
      let r := float_of_Q (Qmake n 100) in
      if s then PrimFloat.opp r else r
  | _ => x
  end.

#[export] Instance float64 : PyFloat float := {|
  fadd := PrimFloat.add; fsub := PrimFloat.sub; fmul := PrimFloat.mul;
  fdiv := float_div;
  feqb := PrimFloat.eqb; fltb := PrimFloat.ltb; fleb := PrimFloat.leb;
  fabs := PrimFloat.abs;
  of_Q := float_of_Q; of_int := float_of_int;
  trunc := float_trunc; round2 := float_round2
|}.

(** *** Exact rationals *)

Definition Qc_eqb (x y : Qc) : bool := Qeq_bool x y.

Definition Qc_ltb (x y : Qc) : bool :=
  match (x ?= y)%Qc with Lt => true | _ => false end.

Definition Qc_leb (x y : Qc) : bool :=
  match (x ?= y)%Qc with Gt => false | _ => true end.

Definition Qc_div (x y : Qc) : option Qc :=
  if Qc_eqb y (Q2Qc 0) then None else Some (x / y)%Qc.

Definition Qc_trunc (x : Qc) : option Z :=
  Some (Z.quot (Qnum x) (Zpos (Qden x))).

Definition Qc_abs (x : Qc) : Qc :=
  if Qc_ltb x (Q2Qc 0) then (- x)%Qc else x.

Definition Qc_round2 (x : Qc) : Qc :=
  Q2Qc (Qmake (round_half_even (100 * Qnum x) (Zpos (Qden x))) 100).

#[export] Instance exactQc : PyFloat Qc := {|
  fadd := Qcplus; fsub := Qcminus; fmul := Qcmult;
  fdiv := Qc_div;
  feqb := Qc_eqb; fltb := Qc_ltb; fleb := Qc_leb;
  fabs := Qc_abs;
  of_Q := Q2Qc; of_int := fun z => Some (Q2Qc (inject_Z z));
  trunc := Qc_trunc; round2 := Qc_round2
|}.

(** *** Decimal strings

    [float(s)] on the plain decimal spellings the venue sends (an optional
    sign, digits, and an optional fraction), for the sample inputs; the
    facts below hold for any reading of strings. *)

Definition digit_of (c : ascii) : option Z :=
  let n := Z.of_N (N_of_ascii c) in
  if (48 <=? n) && (n <=? 57) then Some (n - 48) else None.

Fixpoint read_digits (cs : list ascii) (acc : Z) (count : nat)
  : Z * nat * list ascii :=
  match cs with
  | c :: cs' =>
      match digit_of c with
      | Some d => read_digits cs' (10 * acc + d) (S count)
      | None => (acc, count, cs)
      end
  | [] => (acc, count, [])
  end.

(** Sign and magnitude of a decimal spelling. *)
Definition decimal_of_string (s : string) : option (bool * Q) :=
  let cs := list_ascii_of_string s in
  let '(neg, cs) :=
    match cs with
    | "-"%char :: r => (true, r)
    | "+"%char :: r => (false, r)
    | _ => (false, cs)
    end in
  let '(ip, ni, cs) := read_digits cs 0 0 in
  let '(m, nf, cs) :=
    match cs with
    | "."%char :: r => read_digits r ip 0
    | _ => (ip, 0%nat, cs)
    end in
  match cs with
  | [] =>
      if (ni + nf =? 0)%nat then None
      else Some (neg, Qmake m (Z.to_pos (10 ^ Z.of_nat nf)))
  | _ => None
  end.

Definition float_of_string (s : string) : option float :=
  '(neg, q) ← decimal_of_string s;
  Some (if neg : bool then PrimFloat.opp (float_of_Q q) else float_of_Q q).

(** ** The script *)

Inductive tier := T10 | T25 | T50 | T100.

Definition tier_label (t : tier) : string :=
  match t with T10 => "10x" | T25 => "25x" | T50 => "50x" | T100 => "100x" end.

Inductive side_t := Long | Short.

Definition TOP_COINS : list string :=
  ["BTC"; "ETH"; "SOL"; "HYPE"; "XRP"; "DOGE"; "SUI"; "LINK"; "AVAX"; "PEPE"].

(** One entry of [LEVERAGE_BUCKETS] (the colour plays no part). *)
Record leverage_range := { lmin : Z; lmax : Z; llabel : tier }.

Definition LEVERAGE_BUCKETS : list leverage_range :=
  [ {| lmin := 1; lmax := 10; llabel := T10 |};
    {| lmin := 11; lmax := 25; llabel := T25 |};
    {| lmin := 26; lmax := 50; llabel := T50 |};
    {| lmin := 51; lmax := 100; llabel := T100 |} ].

Section Script.
Context {F : Type} `{PyFloat F}.

(** [float(s)] on a string. *)
Variable float_of_str : string -> option F.

(** *** Decoded JSON and the Python operations used on it

    [None] stands for a raised exception throughout. *)

Inductive json :=
| JNull
| JBool (b : bool)
| JInt (z : Z)
| JFloat (f : F)
| JStr (s : string)
| JList (l : list json)
| JDict (kv : list (string * json)).

Fixpoint dict_lookup (k : string) (kv : list (string * json)) : option json :=
  match kv with
  | [] => None
  | (k', v) :: kv' => if String.eqb k' k then Some v else dict_lookup k kv'
  end.

(** [d.get(k, dflt)]: only a dict has [get]. *)
Definition py_get (d : json) (k : string) (dflt : json) : option json :=
  match d with
  | JDict kv => Some (default dflt (dict_lookup k kv))
  | _ => None
  end.

Definition is_dict (v : json) : bool :=
  match v with JDict _ => true | _ => false end.

(** Truth value of a JSON value. *)
Definition truthy (v : json) : bool :=
  match v with
  | JNull => false
  | JBool b => b
  | JInt z => negb (z =? 0)
  | JFloat f => negb (feqb f fzero)
  | JStr s => negb (String.eqb s "")
  | JList l => match l with [] => false | _ => true end
  | JDict kv => match kv with [] => false | _ => true end
  end.

(** [a or b], the second operand evaluated only when needed. *)
Definition py_or (a : json) (b : option json) : option json :=
  if truthy a then Some a else b.

Definition chars (s : string) : list json :=
  (fun c => JStr (String c "")) <$> list_ascii_of_string s.

(** [for x in v]. *)
Definition py_iter (v : json) : option (list json) :=
  match v with
  | JList l => Some l
  | JStr s => Some (chars s)
  | JDict kv => Some ((fun p => JStr p.1) <$> kv)
  | _ => None
  end.

(** [len(v)]. *)
Definition py_len (v : json) : option nat :=
  match v with
  | JList l => Some (length l)
  | JStr s => Some (String.length s)
  | JDict kv => Some (length kv)
  | _ => None
  end.

(** [v[i]] for an index [i]; a decoded dict has string keys only. *)
Definition py_index (v : json) (i : nat) : option json :=
  match v with
  | JList l => l !! i
  | JStr s => chars s !! i
  | _ => None
  end.

(** [v[:200]]. *)
Definition py_slice200 (v : json) : option (list json) :=
  match v with
  | JList l => Some (take 200 l)
  | JStr s => Some (take 200 (chars s))
  | _ => None
  end.

(** [float(v)]. *)
Definition py_float (v : json) : option F :=
  match v with
  | JBool b => of_int (if b then 1 else 0)
  | JInt z => of_int z
  | JFloat f => Some f
  | JStr s => float_of_str s
  | _ => None
  end.

(** [v in TOP_COINS], with the symbol when it holds. *)
Definition top_coin (v : json) : option string :=
  match v with
  | JStr s => if bool_decide (s ∈ TOP_COINS) then Some s else None
  | _ => None
  end.

(** *** [get_leverage_bucket] *)

(** The numbers a comparison with an [int] accepts. *)
Inductive pynum := PInt (z : Z) | PFloat (f : F).

Definition as_number (v : json) : option pynum :=
  match v with
  | JBool b => Some (PInt (if b then 1 else 0))
  | JInt z => Some (PInt z)
  | JFloat f => Some (PFloat f)
  | _ => None
  end.

(** [bucket['min'] <= leverage <= bucket['max']]. *)
Definition in_range (b : leverage_range) (leverage : pynum) : bool :=
  match leverage with
  | PInt z => (lmin b <=? z) && (z <=? lmax b)
  | PFloat f =>
      fleb (of_Q (inject_Z (lmin b))) f && fleb f (of_Q (inject_Z (lmax b)))
  end.

Definition get_leverage_bucket (leverage : pynum) : tier :=
  match List.find (fun b => in_range b leverage) LEVERAGE_BUCKETS with
  | Some b => llabel b
  | None => T100
  end.

(** *** The venue *)

Inductive request :=
| GetLeaderboard
| PostInfo (payload : json).

(** What each request answers: the decoded body, or [None] when the call,
    its status check or the decoding raises. *)
Record network := {
  get_leaderboard : option json;
  post_info : json -> option json
}.

(** *** [fetch_leaderboard] *)

(** Row of the keyed shape: the wallet to append, if any. *)
Definition row_wallet (entry : json) : option (option json) :=
  a ← py_get entry "ethAddress" JNull;
  wallet ← py_or a (py_get entry "user" JNull);
  Some (if truthy wallet then Some wallet else None).

(** Entry of the bare-list shape. *)
Definition entry_wallet (entry : json) : option (option json) :=
  match entry with
  | JDict _ =>
      a ← py_get entry "ethAddress" JNull;
      ab ← py_or a (py_get entry "user" JNull);
      wallet ← py_or ab (py_get entry "address" JNull);
      Some (if truthy wallet then Some wallet else None)
  | JStr _ => Some (Some entry)
  | _ => Some None
  end.

(** Entry of the fallback answer. *)
Definition fallback_wallet (entry : json) : option (option json) :=
  match entry with
  | JDict _ => row_wallet entry
  | _ => Some None
  end.

(** The loops that fill [wallets]. *)
Definition gather (pick : json -> option (option json)) (entries : list json)
  : option (list json) :=
  picked ← mapM pick entries;
  Some (omap id picked).

(** Body of the outer [try], after the answer is decoded. *)
Definition primary_wallets (data : json) : option (list json) :=
  match data with
  | JDict kv =>
      match dict_lookup "leaderboardRows" kv with
      | Some rows => entries ← py_slice200 rows; gather row_wallet entries
      | None => Some []
      end
  | JList l => gather entry_wallet (take 200 l)
  | _ => Some []
  end.

(** Body of the inner [try]. *)
Definition secondary_wallets (data : json) : option (list json) :=
  match data with
  | JList l => gather fallback_wallet (take 200 l)
  | _ => Some []
  end.

Definition leaderboard_payload : json :=
  JDict [("type", JStr "leaderboard"); ("timeWindow", JStr "day")].

(** The wallets returned, with the requests sent in order. *)
Definition fetch_leaderboard (net : network) : list json * list request :=
  match get_leaderboard net ≫= primary_wallets with
  | Some wallets => (wallets, [GetLeaderboard])
  | None =>
      let sent := [GetLeaderboard; PostInfo leaderboard_payload] in
      match post_info net leaderboard_payload ≫= secondary_wallets with
      | Some wallets => (wallets, sent)
      | None => ([], sent)
      end
  end.

(** *** [fetch_clearinghouse_state] *)

Record position := {
  coin : string;
  liquidationPx : F;
  entryPx : F;
  abs_size : F;
  positionValue : F;
  leverage : json;
  leverageBucket : tier;
  side : side_t
}.

(** Body of the loop over [asset_positions]: [Some None] when the entry
    adds nothing. *)
Definition entry_position (ap : json) : option (option position) :=
  pos ← py_get ap "position" (JDict []);
  c ← py_get pos "coin" (JStr "");
  match top_coin c with
  | None => Some None
  | Some coin =>
      liq_price ← py_get pos "liquidationPx" JNull;
      entry_price ← py_get pos "entryPx" JNull;
      size ← py_get pos "szi" (JStr "0");
      leverage_info ← py_get pos "leverage" (JDict []);
      if truthy liq_price && truthy entry_price then
        size_float ← (if truthy size then py_float size else Some fzero);
        let is_long := fltb fzero size_float in
        leverage ← (if is_dict leverage_info
                    then py_get leverage_info "value" (JInt 1)
                    else Some (JInt 1));
        entry ← py_float entry_price;
        let position_value := fmul (fabs size_float) entry in
        liq ← py_float liq_price;
        lev ← as_number leverage;
        Some (Some {|
          coin := coin;
          liquidationPx := liq;
          entryPx := entry;
          abs_size := fabs size_float;
          positionValue := position_value;
          leverage := leverage;
          leverageBucket := get_leverage_bucket lev;
          side := if is_long then Long else Short
        |})
      else Some None
  end.

(** Body of the [try], after the answer is decoded. *)
Definition state_positions (data : json) : option (list position) :=
  asset_positions ← py_get data "assetPositions" (JList []);
  entries ← py_iter asset_positions;
  found ← mapM entry_position entries;
  Some (omap id found).

Definition clearinghouse_payload (wallet : json) : json :=
  JDict [("type", JStr "clearinghouseState"); ("user", wallet)].

Definition fetch_clearinghouse_state (net : network) (wallet : json)
  : list position :=
  default [] (post_info net (clearinghouse_payload wallet) ≫= state_positions).

(** *** [fetch_current_prices] *)

(** One turn of the loop over [enumerate(universe)]. *)
Definition price_step (contexts : json) (prices : gmap string F)
    (i : nat) (asset : json) : option (gmap string F) :=
  c ← py_get asset "name" (JStr "");
  match top_coin c with
  | None => Some prices
  | Some coin =>
      n ← py_len contexts;
      if bool_decide (i < n)%nat then
        ctx ← py_index contexts i;
        raw ← py_get ctx "markPx" (JInt 0);
        mark_price ← py_float (if truthy raw then raw else JInt 0);
        Some (<[coin := mark_price]> prices)
      else Some prices
  end.

Fixpoint price_loop (contexts : json) (prices : gmap string F)
    (i : nat) (assets : list json) : option (gmap string F) :=
  match assets with
  | [] => Some prices
  | asset :: rest =>
      prices' ← price_step contexts prices i asset;
      price_loop contexts prices' (S i) rest
  end.

(** Body of the [try], after the answer is decoded. *)
Definition context_prices (data : json) : option (gmap string F) :=
  n ← py_len data;
  if bool_decide (2 <= n)%nat then
    meta ← py_index data 0;
    contexts ← py_index data 1;
    universe ← py_get meta "universe" (JList []);
    assets ← py_iter universe;
    price_loop contexts ∅ 0 assets
  else Some ∅.

Definition prices_payload : json := JDict [("type", JStr "metaAndAssetCtxs")].

Definition fetch_current_prices (net : network) : gmap string F :=
  default ∅ (post_info net prices_payload ≫= context_prices).
End Script.

Arguments json F : clear implicits.
Arguments position F : clear implicits.
Arguments network F : clear implicits.
Arguments request F : clear implicits.
Arguments pynum F : clear implicits.

(** *** [aggregate_liquidations] *)

Section Aggregate.
Context {F : Type} `{PyFloat F}.

(** The value of one entry of a [defaultdict]: the total and the four
    sub-totals by leverage label. *)
Record bucket := {
  total : F;
  b10x : F;
  b25x : F;
  b50x : F;
  b100x : F
}.

Definition empty_bucket : bucket :=
  {| total := fzero; b10x := fzero; b25x := fzero; b50x := fzero;
     b100x := fzero |}.

(** [b['total'] += value; b[leverage_bucket] += value]. *)
Definition add_value (t : tier) (value : F) (b : bucket) : bucket :=
  let total' := fadd (total b) value in
  match t with
  | T10 => {| total := total'; b10x := fadd (b10x b) value;
              b25x := b25x b; b50x := b50x b; b100x := b100x b |}
  | T25 => {| total := total'; b10x := b10x b;
              b25x := fadd (b25x b) value; b50x := b50x b; b100x := b100x b |}
  | T50 => {| total := total'; b10x := b10x b; b25x := b25x b;
              b50x := fadd (b50x b) value; b100x := b100x b |}
  | T100 => {| total := total'; b10x := b10x b; b25x := b25x b;
               b50x := b50x b; b100x := fadd (b100x b) value |}
  end.

(** A [defaultdict] keyed by bucket price, in insertion order: the entry
    under the first equal key is updated, a missing key is appended. *)
Fixpoint dd_update (k : F) (f : bucket -> bucket) (d : list (F * bucket))
  : list (F * bucket) :=
  match d with
  | [] => [(k, f empty_bucket)]
  | (k', b) :: d' =>
      if feqb k' k then (k', f b) :: d' else (k', b) :: dd_update k f d'
  end.

Fixpoint dd_get (k : F) (d : list (F * bucket)) : bucket :=
  match d with
  | [] => empty_bucket
  | (k', b) :: d' => if feqb k' k then b else dd_get k d'
  end.

(** [sorted], a stable sort by [<]. *)
Fixpoint insert_by {A} (lt : A -> A -> bool) (x : A) (l : list A) : list A :=
  match l with
  | [] => [x]
  | y :: l' => if lt y x then y :: insert_by lt x l' else x :: y :: l'
  end.

Definition py_sorted {A} (lt : A -> A -> bool) (l : list A) : list A :=
  foldr (insert_by lt) [] l.

(** [sorted(..., reverse=True)]: equal elements keep their order. *)
Definition py_sorted_reverse {A} (lt : A -> A -> bool) (l : list A) : list A :=
  reverse (py_sorted lt (reverse l)).

(** One element of [longLiquidations] or [shortLiquidations]. *)
Record level := {
  price : F;
  value : F;
  cumulative : F;
  v10x : F;
  v25x : F;
  v50x : F;
  v100x : F
}.

(** The loop that walks the sorted prices with its running sum. *)
Fixpoint running (d : list (F * bucket)) (cum : F) (prices : list F)
  : list level :=
  match prices with
  | [] => []
  | p :: rest =>
      let b := dd_get p d in
      let cum' := fadd cum (total b) in
      {| price := round2 p; value := total b; cumulative := cum';
         v10x := b10x b; v25x := b25x b; v50x := b50x b; v100x := b100x b |}
      :: running d cum' rest
  end.

(** [data.sort(key=lambda x: x['price'])]. *)
Definition sort_by_price (l : list level) : list level :=
  py_sorted (fun a b => fltb (price a) (price b)) l.

(** The two dictionaries and the two running totals of the position loop. *)
Record tally := {
  long_liquidations : list (F * bucket);
  short_liquidations : list (F * bucket);
  cumulative_long : F;
  cumulative_short : F
}.

Definition empty_tally : tally :=
  {| long_liquidations := []; short_liquidations := [];
     cumulative_long := fzero; cumulative_short := fzero |}.

Definition num_buckets : Z := 50.

Definition in_window (price_min price_max liq_price : F) : bool :=
  fleb price_min liq_price && fleb liq_price price_max.

(** The price that represents the bucket a liquidation price falls in. *)
Definition bucket_price_of (price_min bucket_size liq_price : F) : option F :=
  q ← fdiv (fsub liq_price price_min) bucket_size;
  i ← trunc q;
  let bucket_idx := Z.min i (num_buckets - 1) in
  fi ← of_int bucket_idx;
  Some (fadd price_min (fmul (fadd fi (of_Q (1 # 2))) bucket_size)).

(** The two updates of the branch taken for the side of the position. *)
Definition add_position (st : tally) (pos : position F) (bucket_price : F)
  : tally :=
  let upd := dd_update bucket_price
               (add_value (leverageBucket pos) (positionValue pos)) in
  match side pos with
  | Long =>
      {| long_liquidations := upd (long_liquidations st);
         short_liquidations := short_liquidations st;
         cumulative_long := fadd (cumulative_long st) (positionValue pos);
         cumulative_short := cumulative_short st |}
  | Short =>
      {| long_liquidations := long_liquidations st;
         short_liquidations := upd (short_liquidations st);
         cumulative_long := cumulative_long st;
         cumulative_short := fadd (cumulative_short st) (positionValue pos) |}
  end.

(** Body of the loop over [coin_positions]. *)
Definition place (price_min price_max bucket_size : F) (st : tally)
    (pos : position F) : option tally :=
  if in_window price_min price_max (liquidationPx pos) then
    bucket_price ← bucket_price_of price_min bucket_size (liquidationPx pos);
    Some (add_position st pos bucket_price)
  else Some st.

Fixpoint place_all (price_min price_max bucket_size : F) (st : tally)
    (coin_positions : list (position F)) : option tally :=
  match coin_positions with
  | [] => Some st
  | pos :: rest =>
      st' ← place price_min price_max bucket_size st pos;
      place_all price_min price_max bucket_size st' rest
  end.

(** [long_data] as the running-sum loop leaves it, highest price first. *)
Definition long_levels (st : tally) : list level :=
  running (long_liquidations st) fzero
    (py_sorted_reverse fltb (long_liquidations st).*1).

Definition short_levels (st : tally) : list level :=
  running (short_liquidations st) fzero
    (py_sorted fltb (short_liquidations st).*1).

(** The value stored under a coin. *)
Record profile := {
  currentPrice : F;
  longLiquidations : list level;
  shortLiquidations : list level;
  totalLongValue : F;
  totalShortValue : F;
  positionCount : nat
}.

Definition price_min_of (current_price : F) : F :=
  fmul current_price (of_Q (7 # 10)).

Definition price_max_of (current_price : F) : F :=
  fmul current_price (of_Q (13 # 10)).

Definition bucket_size_of (current_price : F) : option F :=
  fdiv (fsub (price_max_of current_price) (price_min_of current_price))
       (of_Q (inject_Z num_buckets)).

(** The histogram of one coin, from its price and its positions. *)
Definition coin_tally (current_price : F) (coin_positions : list (position F))
  : option tally :=
  bucket_size ← bucket_size_of current_price;
  place_all (price_min_of current_price) (price_max_of current_price)
    bucket_size empty_tally coin_positions.

Definition make_profile (current_price : F) (st : tally) (count : nat)
  : profile :=
  {| currentPrice := current_price;
     longLiquidations := sort_by_price (long_levels st);
     shortLiquidations := sort_by_price (short_levels st);
     totalLongValue := cumulative_long st;
     totalShortValue := cumulative_short st;
     positionCount := count |}.

Definition positions_of (c : string) (all_positions : list (position F))
  : list (position F) :=
  filter (fun p => coin p = c) all_positions.

(** Body of the loop over [TOP_COINS]: [Some None] when the coin is
    passed over. *)
Definition aggregate_coin (all_positions : list (position F))
    (current_prices : gmap string F) (c : string) : option (option profile) :=
  let current_price := default fzero (current_prices !! c) in
  if feqb current_price fzero then Some None
  else
    let coin_positions := positions_of c all_positions in
    match coin_positions with
    | [] => Some None
    | _ =>
        st ← coin_tally current_price coin_positions;
        Some (Some (make_profile current_price st (length coin_positions)))
    end.

Fixpoint aggregate_coins (all_positions : list (position F))
    (current_prices : gmap string F) (coins : list string)
    (result : list (string * profile)) : option (list (string * profile)) :=
  match coins with
  | [] => Some result
  | c :: rest =>
      r ← aggregate_coin all_positions current_prices c;
      aggregate_coins all_positions current_prices rest
        (match r with Some prof => result ++ [(c, prof)] | None => result end)
  end.

(** The result dictionary, in insertion order. *)
Definition aggregate_liquidations (all_positions : list (position F))
    (current_prices : gmap string F) : option (list (string * profile)) :=
  aggregate_coins all_positions current_prices TOP_COINS [].
End Aggregate.

Arguments bucket F : clear implicits.
Arguments level F : clear implicits.
Arguments tally F : clear implicits.
Arguments profile F : clear implicits.

(** *** [main] *)

Section Main.
Context {F : Type} `{PyFloat F}.
Variable float_of_str : string -> option F.

(** The loop over the wallets: [all_positions.extend(positions)]. *)
Definition collect_positions (net : network F) (wallets : list (json F))
  : list (position F) :=
  fold_left
    (fun all_positions wallet =>
       all_positions ++ fetch_clearinghouse_state float_of_str net wallet)
    wallets [].

(** What [main] writes, the time stamp and the constant table apart. *)
Record snapshot := {
  coins : list string;
  data : list (string * profile F);
  tradersCount : nat
}.

Definition main (net : network F) : option snapshot :=
  let current_prices := fetch_current_prices float_of_str net in
  let wallets := (fetch_leaderboard net).1 in
  let all_positions := collect_positions net wallets in
  liquidation_data ← aggregate_liquidations all_positions current_prices;
  Some {| coins := liquidation_data.*1;
          data := liquidation_data;
          tradersCount := length wallets |}.
End Main.

Arguments snapshot F : clear implicits.

(** ** Notions the statements use *)

Section Notions.
Context {F : Type} `{PyFloat F}.

(** How many of the requests sent went to the fallback source. *)
Definition secondary_attempts (sent : list (request F)) : nat :=
  length (List.filter
            (fun r => match r with PostInfo _ => true | GetLeaderboard => false end)
            sent).

(** What the primary source alone yields, a raised error counting as
    nothing. *)
Definition primary_yield (net : network F) : list (json F) :=
  default [] (get_leaderboard net ≫= primary_wallets).

(** ['10x' + '25x' + '50x' + '100x'] of an emitted level. *)
Definition tier_sum (lv : level F) : F :=
  fadd (fadd (fadd (v10x lv) (v25x lv)) (v50x lv)) (v100x lv).

(** The same sum inside a dictionary entry. *)
Definition bucket_tier_sum (b : bucket F) : F :=
  fadd (fadd (fadd (b10x b) (b25x b)) (b50x b)) (b100x b).

(** The sum of a list of values, from the right. *)
Definition fsum (l : list F) : F := foldr fadd fzero l.

Definition totals (d : list (F * bucket F)) : list F :=
  (fun kb => total kb.2) <$> d.

(** The leverage [fetch_clearinghouse_state] stores for a raw position:
    the [value] of a descriptor that is an object, and 1 for an object
    without [value], for a missing descriptor and for anything else. *)
Definition descriptor_leverage (pos : json F) : json F :=
  match pos with
  | JDict kv =>
      match dict_lookup "leverage" kv with
      | Some (JDict d) => default (JInt 1) (dict_lookup "value" d)
      | _ => JInt 1
      end
  | _ => JInt 1
  end.

(** The four sub-totals of an entry add up to its total. *)
Definition balanced (b : bucket F) : Prop := bucket_tier_sum b = total b.

(** Prices in strictly rising, and strictly falling, order. *)
Definition rising (l : list F) : Prop :=
  StronglySorted (fun a b => fltb a b = true) l.

Definition falling (l : list F) : Prop :=
  StronglySorted (fun a b => fltb b a = true) l.

(** What the position loop maintains when sums are exact: each dictionary
    holds a key once, and its totals add up to the running total of its
    side. *)
Definition tally_consistent (st : tally F) : Prop :=
  NoDup (long_liquidations st).*1 /\
  NoDup (short_liquidations st).*1 /\
  fsum (totals (long_liquidations st)) = cumulative_long st /\
  fsum (totals (short_liquidations st)) = cumulative_short st /\
  Forall (fun kb => balanced kb.2) (long_liquidations st) /\
  Forall (fun kb => balanced kb.2) (short_liquidations st).
End Notions.

(** The binary64 values no range of [LEVERAGE_BUCKETS] holds: those above
    100, those below 1, those strictly between two ranges, and the value that
    is not a number. *)
Definition unmatched (f : float) : Prop :=
  let c z := float_of_Q (inject_Z z) in
  PrimFloat.ltb (c 100) f = true \/
  PrimFloat.ltb f (c 1) = true \/
  PrimFloat.ltb (c 10) f = true /\ PrimFloat.ltb f (c 11) = true \/
  PrimFloat.ltb (c 25) f = true /\ PrimFloat.ltb f (c 26) = true \/
  PrimFloat.ltb (c 50) f = true /\ PrimFloat.ltb f (c 51) = true \/
  PrimFloat.is_nan f = true.

(** ** Sample inputs *)

Section Samples.
Context {F : Type} `{PyFloat F}.

(** A position as [fetch_clearinghouse_state] builds it, entered at price
    1 so that its value is its size. *)
Definition sample_position (c : string) (s : side_t) (liq size : Q) (lev : Z)
  : position F :=
  {| coin := c;
     liquidationPx := of_Q liq;
     entryPx := of_Q 1;
     abs_size := fabs (of_Q size);
     positionValue := fmul (fabs (of_Q size)) (of_Q 1);
     leverage := JInt lev;
     leverageBucket := get_leverage_bucket (PInt lev : pynum F);
     side := s |}.

Definition btc_at_100 : gmap string F := {[ "BTC" := of_Q 100 ]}.

(** The example of the specification: one long position liquidated at 85. *)
Definition single_long : list (position F) :=
  [sample_position "BTC" Long 85 1000 5].

(** Three long positions in three buckets. *)
Definition spread_longs : list (position F) :=
  [sample_position "BTC" Long 80 (1 # 10) 5;
   sample_position "BTC" Long 85 (2 # 10) 5;
   sample_position "BTC" Long 90 (3 # 10) 5].

(** Three long positions in one bucket, of two leverage labels. *)
Definition stacked_longs : list (position F) :=
  [sample_position "BTC" Long 85 (3 # 10) 5;
   sample_position "BTC" Long 85 (2 # 10) 20;
   sample_position "BTC" Long 85 (1 # 10) 5].

(** Positions on the two ends of the window of price 100, and one beyond. *)
Definition at_floor : position F := sample_position "BTC" Long 70 1 5.
Definition at_ceiling : position F := sample_position "BTC" Short 130 2 20.
Definition beyond : position F := sample_position "BTC" Short 131 4 20.

(** The primary source answers with an empty list; the fallback would
    have a wallet. *)
Definition empty_primary : network F :=
  {| get_leaderboard := Some (JList []);
     post_info := fun _ => Some (JList [JDict [("user", JStr "0xabc")]]) |}.

(** The fields of a raw position as the venue sends them, and the same
    with the bare number 20 for a leverage descriptor, and with no size. *)
Definition long_fields : list (string * json F) :=
  [("coin", JStr "BTC"); ("szi", JStr "0.5"); ("entryPx", JStr "100");
   ("liquidationPx", JStr "85");
   ("leverage", JDict [("type", JStr "cross"); ("value", JInt 20)])].

Definition bare_leverage_fields : list (string * json F) :=
  [("coin", JStr "BTC"); ("szi", JStr "0.5"); ("entryPx", JStr "100");
   ("liquidationPx", JStr "85"); ("leverage", JInt 20)].

Definition sizeless_fields : list (string * json F) :=
  [("coin", JStr "BTC"); ("entryPx", JStr "100");
   ("liquidationPx", JStr "85");
   ("leverage", JDict [("type", JStr "cross"); ("value", JInt 20)])].

Definition entry_of (fields : list (string * json F)) : json F :=
  JDict [("position", JDict fields)].

Definition state_of (fields : list (string * json F)) : json F :=
  JDict [("assetPositions", JList [entry_of fields])].

(** A venue whose price answer lacks its second element and where the
    account [0xbad] cannot be read. *)
Definition faulty_venue : network F :=
  {| get_leaderboard := Some (JList [JStr "0xa"; JStr "0xbad"; JStr "0xc"]);
     post_info := fun payload =>
       match py_get payload "type" JNull, py_get payload "user" JNull with
       | Some (JStr t), Some user =>
           if String.eqb t "metaAndAssetCtxs"
           then Some (JList [JDict [("universe", JList [])]])
           else if String.eqb t "clearinghouseState"
           then match user with
                | JStr u => if String.eqb u "0xbad" then None
                            else Some (state_of long_fields)
                | _ => None
                end
           else None
       | _, _ => None
       end |}.
End Samples.

(** ** Further notions *)

#[export] Instance side_eq_dec : EqDecision side_t.
Proof. solve_decision. Defined.

Section FurtherNotions.
Context {F : Type} `{PyFloat F}.

(** What [fetch_leaderboard] can hand out as a wallet: a value that counts
    as true, or a string taken as it is from a bare list. *)
Definition wallet_like (w : json F) : Prop :=
  truthy w = true \/ exists s, w = JStr s.

(** What every position built by [fetch_clearinghouse_state] satisfies. *)
Definition built_position (p : position F) : Prop :=
  coin p ∈ TOP_COINS /\
  positionValue p = fmul (abs_size p) (entryPx p) /\
  exists n, as_number (leverage p) = Some n /\
            leverageBucket p = get_leverage_bucket n.

(** The positions of one side. *)
Definition on_side (s : side_t) (l : list (position F)) : list (position F) :=
  filter (fun p => side p = s) l.

(** The positions of a list that pass the window test of a price. *)
Definition in_window_of (current_price : F) (p : position F) : bool :=
  in_window (price_min_of current_price) (price_max_of current_price)
    (liquidationPx p).

(** Each level adds its value to the cumulative value of the level before
    it, the first one to zero. *)
Fixpoint running_from (cum : F) (l : list (level F)) : Prop :=
  match l with
  | [] => True
  | lv :: rest =>
      cumulative lv = fadd cum (value lv) /\ running_from (cumulative lv) rest
  end.

(** A raw position whose leverage value is a string, and an account state
    that holds it after a sound position. *)
Definition string_leverage_fields : list (string * json F) :=
  [("coin", JStr "ETH"); ("szi", JStr "2"); ("entryPx", JStr "3000");
   ("liquidationPx", JStr "2500");
   ("leverage", JDict [("type", JStr "cross"); ("value", JStr "20")])].

(** A raw position of a coin that is not tracked, with fields that cannot be
    read as numbers. *)
Definition untracked_fields : list (string * json F) :=
  [("coin", JStr "WIF"); ("szi", JStr "many"); ("entryPx", JList []);
   ("liquidationPx", JStr "n/a"); ("leverage", JNull)].

Definition state_with (entries : list (json F)) : json F :=
  JDict [("assetPositions", JList entries)].

(** A position of a coin that is not tracked. *)
Definition stray : position F := sample_position "WIF" Long 85 7 5.

(** The dictionary and the running total of one side, in the state of the
    position loop and in a profile. *)
Definition side_dict (s : side_t) (st : tally F) : list (F * bucket F) :=
  match s with
  | Long => long_liquidations st
  | Short => short_liquidations st
  end.

Definition side_total (s : side_t) (st : tally F) : F :=
  match s with
  | Long => cumulative_long st
  | Short => cumulative_short st
  end.

Definition side_levels (s : side_t) (prof : profile F) : list (level F) :=
  match s with
  | Long => longLiquidations prof
  | Short => shortLiquidations prof
  end.

Definition side_value (s : side_t) (prof : profile F) : F :=
  match s with
  | Long => totalLongValue prof
  | Short => totalShortValue prof
  end.

Definition other_side (s : side_t) : side_t :=
  match s with Long => Short | Short => Long end.

(** The positions of a side that pass the window test of a price. *)
Definition placed (current_price : F) (s : side_t) (l : list (position F))
  : list (position F) :=
  filter (fun p => side p = s /\ in_window_of current_price p = true) l.

(** A venue with one account, whose state is given. *)
Definition one_account (data : json F) : network F :=
  {| get_leaderboard := Some (JList [JStr "0xa"]);
     post_info := fun _ => Some data |}.

(** The smallest positive price of binary64, and a position liquidated at
    that price. *)
Definition tiny_price : Q := 1 # (2 ^ 1074).

Definition btc_at_tiny : gmap string F := {[ "BTC" := of_Q tiny_price ]}.

Definition at_tiny : position F := sample_position "BTC" Long tiny_price 1 5.
End FurtherNotions.

(** ** Facts about the aggregation that hold for any arithmetic *)

Section AggregateFacts.
Context {F : Type} `{PyFloat F}.
Implicit Types (st : tally F) (pos : position F) (d : list (F * bucket F)).

Lemma insert_by_perm {A} (lt : A -> A -> bool) x l :
  insert_by lt x l ≡ₚ x :: l.
Proof.
  induction l as [|y l IH]; simpl; [done|].
  destruct (lt y x); [|done].
  rewrite IH. apply Permutation_swap.
Qed.

Lemma py_sorted_perm {A} (lt : A -> A -> bool) l : py_sorted lt l ≡ₚ l.
Proof.
  induction l as [|x l IH]; simpl; [done|].
  rewrite insert_by_perm. by rewrite IH.
Qed.

Lemma py_sorted_reverse_perm {A} (lt : A -> A -> bool) l :
  py_sorted_reverse lt l ≡ₚ l.
Proof.
  unfold py_sorted_reverse.
  by rewrite reverse_Permutation, py_sorted_perm, reverse_Permutation.
Qed.

Lemma sort_by_price_perm (l : list (level F)) : sort_by_price l ≡ₚ l.
Proof. apply py_sorted_perm. Qed.

(** The result holds a profile for a coin exactly when the loop body
    produced it. *)
Lemma aggregate_coins_elem all_positions prices coins result res c prof :
  aggregate_coins all_positions prices coins result = Some res ->
  (c, prof) ∈ res <->
  (c, prof) ∈ result \/
  (c ∈ coins /\ aggregate_coin all_positions prices c = Some (Some prof)).
Proof.
  revert result. induction coins as [|c0 coins IH]; intros result Hres; simpl in *.
  - simplify_eq. rewrite elem_of_nil. tauto.
  - destruct (aggregate_coin all_positions prices c0) as [r|] eqn:Hc0;
      simpl in Hres; [|done].
    rewrite (IH _ Hres), elem_of_cons. clear IH Hres.
    destruct r as [prof0|].
    + rewrite elem_of_app, list_elem_of_singleton. split.
      * intros [[?|?]|[? ?]]; simplify_eq; eauto.
      * intros [?|[[->|?] Hc]]; eauto. rewrite Hc0 in Hc. simplify_eq. eauto.
    + split.
      * intros [?|[? ?]]; eauto.
      * intros [?|[[->|?] Hc]]; eauto. rewrite Hc0 in Hc. simplify_eq.
Qed.

Lemma aggregate_liquidations_elem all_positions prices res c prof :
  aggregate_liquidations all_positions prices = Some res ->
  (c, prof) ∈ res <->
  c ∈ TOP_COINS /\ aggregate_coin all_positions prices c = Some (Some prof).
Proof.
  intros Hres. rewrite (aggregate_coins_elem _ _ _ _ _ _ _ Hres), elem_of_nil.
  tauto.
Qed.

Lemma place_all_app pmin pmax bs st l1 l2 :
  place_all pmin pmax bs st (l1 ++ l2) =
  place_all pmin pmax bs st l1 ≫= fun st' => place_all pmin pmax bs st' l2.
Proof.
  revert st. induction l1 as [|p l1 IH]; intros st; simpl; [done|].
  destruct (place pmin pmax bs st p); simpl; [apply IH|done].
Qed.

Lemma place_outside pmin pmax bs st pos :
  in_window pmin pmax (liquidationPx pos) = false ->
  place pmin pmax bs st pos = Some st.
Proof. unfold place. by intros ->. Qed.

Lemma place_all_outside pmin pmax bs st l1 pos l2 :
  in_window pmin pmax (liquidationPx pos) = false ->
  place_all pmin pmax bs st (l1 ++ pos :: l2) =
  place_all pmin pmax bs st (l1 ++ l2).
Proof.
  intros Hout. rewrite !place_all_app. simpl.
  destruct (place_all pmin pmax bs st l1) as [st'|]; simpl; [|done].
  by rewrite place_outside.
Qed.

Lemma positions_of_app c (l1 l2 : list (position F)) :
  positions_of c (l1 ++ l2) = positions_of c l1 ++ positions_of c l2.
Proof. apply filter_app. Qed.

Lemma positions_of_cons_same (p : position F) l :
  positions_of (coin p) (p :: l) = p :: positions_of (coin p) l.
Proof. unfold positions_of. by rewrite filter_cons_True. Qed.
End AggregateFacts.

Section FetchFacts.
Context {F : Type} `{PyFloat F}.
Variable float_of_str : string -> option F.

Lemma collect_positions_from (net : network F) ws (acc : list (position F)) :
  fold_left
    (fun all_positions wallet =>
       all_positions ++ fetch_clearinghouse_state float_of_str net wallet)
    ws acc
  = acc ++ collect_positions float_of_str net ws.
Proof.
  unfold collect_positions. revert acc.
  induction ws as [|w ws IH]; intros acc; simpl.
  - by rewrite app_nil_r.
  - rewrite IH, (IH (fetch_clearinghouse_state _ _ _)). by rewrite app_assoc.
Qed.

Lemma collect_positions_cons (net : network F) w ws :
  collect_positions float_of_str net (w :: ws) =
  fetch_clearinghouse_state float_of_str net w
    ++ collect_positions float_of_str net ws.
Proof. unfold collect_positions at 1. simpl. apply collect_positions_from. Qed.

Lemma collect_positions_app (net : network F) ws1 ws2 :
  collect_positions float_of_str net (ws1 ++ ws2) =
  collect_positions float_of_str net ws1
    ++ collect_positions float_of_str net ws2.
Proof.
  induction ws1 as [|w ws1 IH]; simpl; [done|].
  by rewrite !collect_positions_cons, IH, app_assoc.
Qed.

Lemma collect_positions_elem (net : network F) ws w p :
  w ∈ ws -> p ∈ fetch_clearinghouse_state float_of_str net w ->
  p ∈ collect_positions float_of_str net ws.
Proof.
  intros [l1 [l2 ->]]%list_elem_of_split Hp.
  rewrite collect_positions_app, collect_positions_cons, !elem_of_app. auto.
Qed.

Lemma aggregate_coin_no_price (all_positions : list (position F)) c :
  feqb (fzero : F) fzero = true ->
  aggregate_coin all_positions ∅ c = Some None.
Proof.
  intros Hz. unfold aggregate_coin. rewrite lookup_empty. simpl. by rewrite Hz.
Qed.

Lemma aggregate_coins_no_price (all_positions : list (position F)) cs result :
  feqb (fzero : F) fzero = true ->
  aggregate_coins all_positions ∅ cs result = Some result.
Proof.
  intros Hz. induction cs as [|c cs IH]; simpl; [done|].
  by rewrite aggregate_coin_no_price.
Qed.

(** C9: when the request for an account, or the reading of its answer,
    raises, [fetch_clearinghouse_state] returns the empty list, and the
    positions [main] collects are those of the accounts before it followed
    by those of the accounts after it: every position of another account
    is in the list handed to the aggregation. *)
Theorem account_failure_isolated (net : network F) w ws1 ws2 :
  post_info net (clearinghouse_payload w) ≫= state_positions float_of_str = None ->
  fetch_clearinghouse_state float_of_str net w = [] /\
  collect_positions float_of_str net (ws1 ++ w :: ws2) =
    collect_positions float_of_str net ws1
      ++ collect_positions float_of_str net ws2 /\
  (forall y p, y ∈ ws1 ++ ws2 ->
     p ∈ fetch_clearinghouse_state float_of_str net y ->
     p ∈ collect_positions float_of_str net (ws1 ++ w :: ws2)).
Proof.
  intros Hfail.
  assert (Hw : fetch_clearinghouse_state float_of_str net w = []).
  { unfold fetch_clearinghouse_state. by rewrite Hfail. }
  split; [done|]. split.
  - by rewrite collect_positions_app, collect_positions_cons, Hw.
  - intros y p Hy Hp. apply (collect_positions_elem net _ y); [|done].
    rewrite elem_of_app in Hy. rewrite elem_of_app, elem_of_cons. tauto.
Qed.

(** C7: when the price request raises, when its answer is a list with
    fewer than two elements, or when reading the answer raises,
    [fetch_current_prices] returns the empty dictionary; with that
    dictionary [aggregate_liquidations] returns an empty result for any
    positions, and [main] ends with a snapshot that holds no coin. *)
Theorem no_prices_no_coins (net : network F) :
  feqb (fzero : F) fzero = true ->
  post_info net prices_payload = None \/
  (exists l, post_info net prices_payload = Some (JList l) /\ (length l < 2)%nat) \/
  post_info net prices_payload ≫= context_prices float_of_str = None ->
  fetch_current_prices float_of_str net = ∅ /\
  (forall all_positions : list (position F),
     aggregate_liquidations all_positions
       (fetch_current_prices float_of_str net) = Some []) /\
  exists n, main float_of_str net =
              Some {| coins := []; data := []; tradersCount := n |}.
Proof.
  intros Hz Hcase.
  assert (Hp : fetch_current_prices float_of_str net = ∅).
  { unfold fetch_current_prices.
    destruct Hcase as [-> | [(l & -> & Hl) | ->]]; [done| |done].
    simpl. unfold context_prices. simpl.
    rewrite bool_decide_eq_false_2 by lia. done. }
  split; [done|]. split.
  - intros ps. rewrite Hp. by apply aggregate_coins_no_price.
  - unfold main. rewrite Hp.
    unfold aggregate_liquidations. rewrite aggregate_coins_no_price by done.
    simpl. eauto.
Qed.
End FetchFacts.

Section WindowFacts.
Context {F : Type} `{PyFloat F}.

Lemma coin_tally_outside price (pos : position F) l1 l2 :
  in_window (price_min_of price) (price_max_of price) (liquidationPx pos) = false ->
  coin_tally price (l1 ++ pos :: l2) = coin_tally price (l1 ++ l2).
Proof.
  intros Hout. unfold coin_tally.
  destruct (bucket_size_of price) as [bs|]; simpl; [|done].
  by apply place_all_outside.
Qed.

Lemma place_inside pmin pmax bs (st st' : tally F) (pos : position F) :
  fleb pmin (liquidationPx pos) = true ->
  fleb (liquidationPx pos) pmax = true ->
  place pmin pmax bs st pos = Some st' ->
  exists bucket_price,
    bucket_price_of pmin bs (liquidationPx pos) = Some bucket_price /\
    st' = add_position st pos bucket_price.
Proof.
  intros Hlo Hhi. unfold place, in_window. rewrite Hlo, Hhi. simpl.
  destruct (bucket_price_of pmin bs (liquidationPx pos)) as [bp|]; simpl;
    [|done].
  intros [= <-]. eauto.
Qed.

End WindowFacts.

Section DiscoveryFacts.
Context {F : Type} `{PyFloat F}.
Variable float_of_str : string -> option F.

(** C4, as the code has it: the fallback request is sent, once, exactly
    when the primary attempt raises (the request, its decoding or the
    reading of the rows); the result is then what the fallback yields, or
    the empty list when that raises too.  When the primary attempt returns,
    even with no wallet, its list is the result and no other request is
    sent.  The function returns in every case. *)
Theorem fallback_only_on_error (net : network F) :
  match get_leaderboard net ≫= primary_wallets with
  | None =>
      (fetch_leaderboard net).2 = [GetLeaderboard; PostInfo leaderboard_payload] /\
      secondary_attempts (fetch_leaderboard net).2 = 1%nat /\
      (fetch_leaderboard net).1 =
        default [] (post_info net leaderboard_payload ≫= secondary_wallets)
  | Some wallets =>
      fetch_leaderboard net = (wallets, [GetLeaderboard]) /\
      secondary_attempts (fetch_leaderboard net).2 = 0%nat
  end.
Proof.
  unfold fetch_leaderboard.
  destruct (get_leaderboard net ≫= primary_wallets) as [wallets|]; [done|].
  by destruct (post_info net leaderboard_payload ≫= secondary_wallets).
Qed.

Lemma descriptor_leverage_get (pos info lev : json F) :
  py_get pos "leverage" (JDict []) = Some info ->
  (if is_dict info then py_get info "value" (JInt 1) else Some (JInt 1))
    = Some lev ->
  lev = descriptor_leverage pos.
Proof.
  destruct pos as [| | | | | |kv]; simpl; try done.
  intros [= <-].
  destruct (dict_lookup "leverage" kv) as [[| | | | | |d]|]; simpl;
    by intros [= <-].
Qed.

(** C6, as the code has it: the leverage of a position built from a raw
    entry is the [value] field of the entry's leverage descriptor when the
    descriptor is an object, and 1 when that object has no [value], when
    the descriptor is missing, and when it is anything but an object, a
    bare number included; the label is the classifier's for the stored
    leverage. *)
Theorem leverage_from_descriptor (ap : json F) (p : position F) :
  entry_position float_of_str ap = Some (Some p) ->
  exists pos,
    py_get ap "position" (JDict []) = Some pos /\
    leverage p = descriptor_leverage pos /\
    exists n, as_number (leverage p) = Some n /\
              leverageBucket p = get_leverage_bucket n.
Proof.
  unfold entry_position. intros Hp.
  destruct (py_get ap "position" (JDict [])) as [pos|]; simpl in Hp; [|done].
  exists pos. split; [done|].
  destruct (py_get pos "coin" (JStr "")) as [c|]; simpl in Hp; [|done].
  destruct (top_coin c) as [cn|]; [|done].
  destruct (py_get pos "liquidationPx" JNull) as [lq|]; simpl in Hp; [|done].
  destruct (py_get pos "entryPx" JNull) as [en|]; simpl in Hp; [|done].
  destruct (py_get pos "szi" (JStr "0")) as [sz|]; simpl in Hp; [|done].
  destruct (py_get pos "leverage" (JDict [])) as [info|] eqn:Hinfo;
    simpl in Hp; [|done].
  destruct (truthy lq && truthy en); [|done].
  destruct (if truthy sz then py_float float_of_str sz else Some fzero)
    as [sf|]; simpl in Hp; [|done].
  destruct (if is_dict info then py_get info "value" (JInt 1) else Some (JInt 1))
    as [lev|] eqn:Hlev; simpl in Hp; [|done].
  destruct (py_float float_of_str en) as [e|]; simpl in Hp; [|done].
  destruct (py_float float_of_str lq) as [l|]; simpl in Hp; [|done].
  destruct (as_number lev) as [n|] eqn:Hn; simpl in Hp; [|done].
  simplify_eq. simpl. split; [by eapply descriptor_leverage_get|eauto].
Qed.
End DiscoveryFacts.

(** ** Facts about the aggregation that hold when sums are exact *)

Section ExactFacts.
Context {F : Type} `{PyFloat F} `{!ExactArith F}.
Implicit Types (b : bucket F) (d : list (F * bucket F)) (st : tally F).

Lemma fadd_0_r (x : F) : fadd x fzero = x.
Proof. by rewrite fadd_comm, fadd_0_l. Qed.

Lemma fadd_swap (x y z : F) : fadd (fadd x y) z = fadd (fadd x z) y.
Proof. by rewrite <- !fadd_assoc, (fadd_comm y z). Qed.

Lemma feqb_refl (x : F) : feqb x x = true.
Proof. by apply feqb_eq. Qed.

Lemma feqb_neq (x y : F) : x ≠ y -> feqb x y = false.
Proof.
  intros Hne. destruct (feqb x y) eqn:Heq; [|done].
  by apply feqb_eq in Heq.
Qed.

#[local] Instance exact_eq_dec : EqDecision F.
Proof.
  intros x y. destruct (feqb x y) eqn:Heq.
  - left. by apply feqb_eq.
  - right. intros Hxy. apply feqb_eq in Hxy. congruence.
Defined.

(** *** Sub-totals *)

Lemma balanced_empty : balanced (empty_bucket : bucket F).
Proof. unfold balanced, bucket_tier_sum. simpl. by rewrite !fadd_0_l. Qed.

Lemma total_add_value t v b : total (add_value t v b) = fadd (total b) v.
Proof. by destruct t. Qed.

Lemma balanced_add_value t v b : balanced b -> balanced (add_value t v b).
Proof.
  unfold balanced, bucket_tier_sum. intros Hb.
  rewrite total_add_value, <- Hb. destruct t; simpl.
  - by rewrite (fadd_swap (b10x b) v), (fadd_swap _ v (b50x b)),
        (fadd_swap _ v (b100x b)).
  - by rewrite (fadd_assoc (b10x b)), (fadd_swap _ v (b50x b)),
        (fadd_swap _ v (b100x b)).
  - by rewrite (fadd_assoc _ (b50x b)), (fadd_swap _ v (b100x b)).
  - by rewrite fadd_assoc.
Qed.

Lemma balanced_dd_get k d :
  Forall (fun kb => balanced kb.2) d -> balanced (dd_get k d).
Proof.
  induction 1 as [|[k' b] d Hb _ IH]; simpl; [apply balanced_empty|].
  by destruct (feqb k' k).
Qed.

Lemma balanced_dd_update k t v d :
  Forall (fun kb => balanced kb.2) d ->
  Forall (fun kb => balanced kb.2) (dd_update k (add_value t v) d).
Proof.
  induction 1 as [|[k' b] d Hb Hd IH]; simpl.
  - constructor; [|done]. apply balanced_add_value, balanced_empty.
  - destruct (feqb k' k); constructor; simpl; auto using balanced_add_value.
Qed.

Lemma running_tier_sum d cum ks :
  Forall (fun kb => balanced kb.2) d ->
  Forall (fun lv => tier_sum lv = value lv) (running d cum ks).
Proof.
  intros Hd. revert cum. induction ks as [|k ks IH]; intros cum; simpl;
    constructor; [|apply IH].
  apply (balanced_dd_get k d Hd).
Qed.

(** *** Sums *)

Lemma fsum_perm (l1 l2 : list F) : l1 ≡ₚ l2 -> fsum l1 = fsum l2.
Proof.
  induction 1 as [|x l1 l2 _ IH|x y l|l1 l2 l3 _ IH1 _ IH2]; simpl.
  - done.
  - by rewrite IH.
  - by rewrite !fadd_assoc, (fadd_comm y x).
  - by rewrite IH1.
Qed.

Lemma totals_dd_update k t v d :
  fsum (totals (dd_update k (add_value t v) d)) = fadd (fsum (totals d)) v.
Proof.
  induction d as [|[k' b] d IH]; simpl.
  - by rewrite total_add_value, fadd_0_r.
  - destruct (feqb k' k); simpl.
    + by rewrite total_add_value, fadd_swap.
    + by rewrite IH, fadd_assoc.
Qed.

Lemma keys_dd_update k f d :
  (dd_update k f d).*1 = if decide (k ∈ d.*1) then d.*1 else d.*1 ++ [k].
Proof.
  induction d as [|[k' b] d IH].
  - destruct (decide (k ∈ ([] : list (F * bucket F)).*1)) as [Hin|_]; [|done].
    by apply elem_of_nil in Hin.
  - cbn [dd_update]. destruct (feqb k' k) eqn:Hk.
    + apply feqb_eq in Hk as ->.
      destruct (decide (k ∈ ((k, b) :: d).*1)) as [_|Hn]; [done|].
      destruct Hn. apply list_elem_of_here.
    + assert (k ≠ k') by (intros ->; by rewrite feqb_refl in Hk).
      rewrite fmap_cons, IH. cbn [fst].
      destruct (decide (k ∈ d.*1)) as [Hin|Hn];
        destruct (decide (k ∈ ((k', b) :: d).*1)) as [Hin'|Hn']; try done.
      * destruct Hn'. by apply list_elem_of_further.
      * rewrite fmap_cons in Hin'. apply elem_of_cons in Hin' as [?|?]; done.
Qed.

Lemma NoDup_dd_update k f d : NoDup d.*1 -> NoDup (dd_update k f d).*1.
Proof.
  intros Hd. rewrite keys_dd_update. destruct (decide (k ∈ d.*1)); [done|].
  apply NoDup_app. split; [done|]. split; [|apply NoDup_singleton].
  intros x Hx ->%list_elem_of_singleton. done.
Qed.

Lemma totals_by_key d :
  NoDup d.*1 -> (fun k => total (dd_get k d)) <$> d.*1 = totals d.
Proof.
  induction d as [|[k b] d IH]; simpl; [done|].
  intros [Hk Hd]%NoDup_cons. rewrite feqb_refl. f_equal.
  rewrite <- (IH Hd). apply Forall_fmap_ext, Forall_forall. intros k' Hk'.
  rewrite feqb_neq; [done|]. by intros ->.
Qed.

Lemma fsum_by_keys d ks :
  NoDup d.*1 -> ks ≡ₚ d.*1 ->
  fsum ((fun k => total (dd_get k d)) <$> ks) = fsum (totals d).
Proof.
  intros Hd Hks. rewrite <- (totals_by_key d Hd).
  apply fsum_perm. by rewrite Hks.
Qed.

(** *** The running-sum loop *)

Lemma running_head d ks lv :
  head (running d fzero ks) = Some lv -> cumulative lv = value lv.
Proof. destruct ks; simpl; [done|]. intros [= <-]. simpl. apply fadd_0_l. Qed.

Lemma running_last d cum ks lv :
  last (running d cum ks) = Some lv ->
  cumulative lv = fadd cum (fsum ((fun k => total (dd_get k d)) <$> ks)).
Proof.
  revert cum. induction ks as [|k ks IH]; intros cum; simpl; [done|].
  destruct ks as [|k' ks].
  - simpl. intros [= <-]. simpl. by rewrite fadd_0_r.
  - intros Hl. rewrite (IH _ Hl). by rewrite fadd_assoc.
Qed.

Lemma running_prices d cum ks : price <$> running d cum ks = round2 <$> ks.
Proof.
  revert cum. induction ks as [|k ks IH]; intros cum; simpl; [done|].
  by rewrite IH.
Qed.

(** *** The position loop *)

Lemma tally_consistent_empty : tally_consistent (empty_tally : tally F).
Proof. repeat split; simpl; by constructor. Qed.

Lemma tally_consistent_add st pos bp :
  tally_consistent st -> tally_consistent (add_position st pos bp).
Proof.
  intros (Hkl & Hks & Hl & Hs & Hbl & Hbs). unfold add_position.
  destruct (side pos); repeat split; simpl;
    auto using NoDup_dd_update, balanced_dd_update;
    by rewrite totals_dd_update; f_equal.
Qed.

Lemma tally_consistent_place pmin pmax bs st st' pos :
  tally_consistent st -> place pmin pmax bs st pos = Some st' ->
  tally_consistent st'.
Proof.
  intros Hst. unfold place. destruct (in_window _ _ _); [|by intros [= <-]].
  destruct (bucket_price_of _ _ _); simpl; [|done].
  intros [= <-]. by apply tally_consistent_add.
Qed.

Lemma tally_consistent_place_all pmin pmax bs st st' l :
  tally_consistent st -> place_all pmin pmax bs st l = Some st' ->
  tally_consistent st'.
Proof.
  revert st. induction l as [|p l IH]; intros st Hst; simpl.
  - by intros [= <-].
  - destruct (place pmin pmax bs st p) as [st1|] eqn:Hp; simpl; [|done].
    apply IH. by eapply tally_consistent_place.
Qed.

Lemma tally_consistent_coin price l st :
  coin_tally price l = Some st -> tally_consistent st.
Proof.
  unfold coin_tally. destruct (bucket_size_of price); simpl; [|done].
  apply tally_consistent_place_all, tally_consistent_empty.
Qed.

(** *** Sorted prices *)

Lemma insert_by_rising x (l : list F) :
  rising l -> x ∉ l -> rising (insert_by fltb x l).
Proof.
  unfold rising. induction 1 as [|y l Hl IH Hy]; intros Hx; simpl.
  - repeat constructor.
  - apply not_elem_of_cons in Hx as [Hxy Hx].
    destruct (fltb y x) eqn:Hyx.
    + constructor; [by apply IH|].
      apply Forall_forall. intros z Hz.
      rewrite insert_by_perm in Hz. apply elem_of_cons in Hz as [->|Hz]; [done|].
      by eapply Forall_forall in Hy.
    + assert (fltb x y = true) as Hlt.
      { destruct (fltb x y) eqn:E; [done|].
        destruct Hxy. by apply fltb_total. }
      constructor; [by constructor|].
      constructor; [done|].
      eapply Forall_impl; [exact Hy|]. intros z Hz. by eapply fltb_trans.
Qed.

Lemma py_sorted_rising (l : list F) : NoDup l -> rising (py_sorted fltb l).
Proof.
  induction 1 as [|x l Hx _ IH]; simpl; [constructor|].
  apply insert_by_rising; [done|]. by rewrite py_sorted_perm.
Qed.

Lemma reverse_rising (l : list F) : rising l -> falling (reverse l).
Proof.
  unfold rising, falling. induction 1 as [|x l Hl IH Hx]; [constructor|].
  rewrite reverse_cons. apply StronglySorted_app_2; [|done|repeat constructor].
  intros y z Hy ->%list_elem_of_singleton.
  rewrite elem_of_reverse in Hy. rewrite Forall_forall in Hx. by apply Hx.
Qed.

Lemma py_sorted_reverse_falling (l : list F) :
  NoDup l -> falling (py_sorted_reverse fltb l).
Proof.
  intros Hl. apply reverse_rising, py_sorted_rising.
  by rewrite reverse_Permutation.
Qed.
End ExactFacts.

Section ExactClaims.
Context {F : Type} `{PyFloat F} `{!ExactArith F}.

Lemma aggregate_profile_tally (all_positions : list (position F)) prices res c prof :
  aggregate_liquidations all_positions prices = Some res ->
  (c, prof) ∈ res ->
  exists st n,
    coin_tally (default fzero (prices !! c)) (positions_of c all_positions)
      = Some st /\
    prof = make_profile (default fzero (prices !! c)) st n.
Proof.
  intros Hres Hin.
  apply (aggregate_liquidations_elem _ _ _ _ _ Hres) in Hin as [_ Hc].
  unfold aggregate_coin in Hc.
  destruct (feqb _ fzero); [done|].
  destruct (positions_of c all_positions) as [|p l]; [done|].
  destruct (coin_tally _ _) as [st|]; simpl in Hc; [|done].
  simplify_eq. eauto.
Qed.


(** The ends of the two running sums, for sums without rounding. *)
Lemma cumulative_ends_exact (all_positions : list (position F)) prices res c prof :
  aggregate_liquidations all_positions prices = Some res ->
  (c, prof) ∈ res ->
  exists st : tally F,
    let long_prices := py_sorted_reverse fltb (long_liquidations st).*1 in
    let short_prices := py_sorted fltb (short_liquidations st).*1 in
    longLiquidations prof = sort_by_price (long_levels st) /\
    shortLiquidations prof = sort_by_price (short_levels st) /\
    longLiquidations prof ≡ₚ long_levels st /\
    shortLiquidations prof ≡ₚ short_levels st /\
    falling long_prices /\
    rising short_prices /\
    price <$> long_levels st = round2 <$> long_prices /\
    price <$> short_levels st = round2 <$> short_prices /\
    (forall lv, head (long_levels st) = Some lv -> cumulative lv = value lv) /\
    (forall lv, last (long_levels st) = Some lv ->
                cumulative lv = totalLongValue prof) /\
    (forall lv, head (short_levels st) = Some lv -> cumulative lv = value lv) /\
    (forall lv, last (short_levels st) = Some lv ->
                cumulative lv = totalShortValue prof).
Proof.
  intros Hres Hin.
  destruct (aggregate_profile_tally _ _ _ _ _ Hres Hin) as (st & n & Hst & ->).
  apply tally_consistent_coin in Hst as (Hkl & Hks & Hl & Hs & _ & _).
  exists st. simpl. unfold long_levels, short_levels.
  repeat split.
  - apply sort_by_price_perm.
  - apply sort_by_price_perm.
  - by apply py_sorted_reverse_falling.
  - by apply py_sorted_rising.
  - apply running_prices.
  - apply running_prices.
  - apply running_head.
  - intros lv Hlv. rewrite (running_last _ _ _ _ Hlv), fadd_0_l, <- Hl.
    apply fsum_by_keys; [done|apply py_sorted_reverse_perm].
  - apply running_head.
  - intros lv Hlv. rewrite (running_last _ _ _ _ Hlv), fadd_0_l, <- Hs.
    apply fsum_by_keys; [done|apply py_sorted_perm].
Qed.
End ExactClaims.

(** ** Exact rationals are exact *)

Lemma Qc_ltb_lt (x y : Qc) : Qc_ltb x y = true <-> (x < y)%Qc.
Proof.
  unfold Qc_ltb. rewrite Qclt_alt. destruct (x ?= y)%Qc; split; congruence.
Qed.

#[export] Instance exactQc_exact : ExactArith Qc.
Proof.
  split; simpl.
  - apply Qcplus_assoc.
  - apply Qcplus_comm.
  - apply Qcplus_0_l.
  - intros x y. unfold Qc_eqb. rewrite Qeq_bool_iff. split.
    + apply Qc_is_canon.
    + by intros ->.
  - intros x. destruct (Qc_ltb x x) eqn:Hx; [|done].
    apply Qc_ltb_lt in Hx. by apply Qclt_not_eq in Hx.
  - intros x y z. rewrite !Qc_ltb_lt. apply Qclt_trans.
  - intros x y Hxy Hyx. apply Qcle_antisym; apply Qcnot_lt_le; intros Hlt;
      apply Qc_ltb_lt in Hlt; congruence.
Qed.

(** ** Facts about binary64 *)

Section Binary64Facts.
Local Abbreviation fc z := (of_Q (inject_Z z) : float).

Lemma Prim2SF_of_finite e :
  PrimFloat.is_finite e = true ->
  match Prim2SF e with
  | S754_zero _ | S754_finite _ _ _ => True
  | _ => False
  end.
Proof.
  unfold PrimFloat.is_finite, Prim2SF.
  destruct (PrimFloat.is_nan e); [done|].
  destruct (PrimFloat.is_zero e); [done|].
  destruct (PrimFloat.is_infinity e); [done|]. intros _.
  destruct (FloatOps.Z.frexp e) as [r ex].
  destruct (shr_fexp _ _ _ _ _) as [sh e'].
  by destruct (shr_m sh).
Qed.

Lemma float_eqb_zero z :
  PrimFloat.eqb z (fzero : float) = true -> exists s, Prim2SF z = S754_zero s.
Proof.
  rewrite FloatAxioms.eqb_spec. change (Prim2SF fzero) with (S754_zero false).
  unfold SFeqb.
  destruct (Prim2SF z) as [s|[]| |[] m e]; simpl; eauto; done.
Qed.

Lemma float_zero_not_positive z :
  PrimFloat.eqb z (fzero : float) = true ->
  PrimFloat.ltb (fzero : float) z = false.
Proof. intros [s Hs]%float_eqb_zero. by rewrite ltb_spec, Hs. Qed.

Lemma float_abs_zero z :
  PrimFloat.eqb z (fzero : float) = true ->
  PrimFloat.eqb (PrimFloat.abs z) (fzero : float) = true.
Proof.
  intros [s Hs]%float_eqb_zero. by rewrite FloatAxioms.eqb_spec, abs_spec, Hs.
Qed.

Lemma float_zero_value z e :
  PrimFloat.eqb z (fzero : float) = true -> PrimFloat.is_finite e = true ->
  PrimFloat.eqb (PrimFloat.mul (PrimFloat.abs z) e) (fzero : float) = true.
Proof.
  intros [s Hs]%float_eqb_zero He%Prim2SF_of_finite.
  rewrite FloatAxioms.eqb_spec, mul_spec, abs_spec, Hs.
  by destruct (Prim2SF e) as [s'|s'| |s' m' e'].
Qed.

Lemma SFcompare_antisym x y c :
  SFcompare x y = Some c -> SFcompare y x = Some (CompOpp c).
Proof.
  destruct x as [sx|sx| |sx mx ex], y as [sy|sy| |sy my ey]; simpl;
    try done; try (intros [= <-]; by repeat case_match).
  intros [= <-]. f_equal.
  rewrite (Z.compare_antisym ex ey).
  assert (Pos.compare_cont Eq my mx = CompOpp (Pos.compare_cont Eq mx my)) as ->
    by exact (eq_sym (Pos.compare_cont_antisym mx my Eq)).
  destruct sx, sy; simpl; try done; destruct (ex ?= ey); simpl; try done.
Qed.

Lemma float_ltb_not_geb x y :
  PrimFloat.ltb x y = true -> PrimFloat.leb y x = false.
Proof.
  rewrite ltb_spec, leb_spec. unfold SFltb, SFleb.
  destruct (SFcompare (Prim2SF x) (Prim2SF y)) as [[]|] eqn:Hc; try done.
  by rewrite (SFcompare_antisym _ _ _ Hc).
Qed.

(** Above a positive value, hence above every positive value of a smaller
    exponent. *)
Lemma float_above_gap a b f ma ea mb eb :
  Prim2SF a = S754_finite false ma ea ->
  Prim2SF b = S754_finite false mb eb ->
  eb < ea ->
  PrimFloat.ltb a f = true -> PrimFloat.leb f b = false.
Proof.
  intros Ha Hb Hlt. rewrite ltb_spec, leb_spec, Ha, Hb.
  unfold SFltb, SFleb.
  destruct (Prim2SF f) as [[]|[]| |[] m e]; simpl; try done.
  destruct (ea ?= e) eqn:He1; try done; intros _.
  - apply Z.compare_eq in He1 as <-.
    by rewrite (proj2 (Z.compare_gt_iff ea eb)) by lia.
  - rewrite Z.compare_lt_iff in He1.
    by rewrite (proj2 (Z.compare_gt_iff e eb)) by lia.
Qed.

Lemma float_below_gap a b f ma ea mb eb :
  Prim2SF a = S754_finite false ma ea ->
  Prim2SF b = S754_finite false mb eb ->
  ea < eb ->
  PrimFloat.ltb f a = true -> PrimFloat.leb b f = false.
Proof.
  intros Ha Hb Hlt. rewrite ltb_spec, leb_spec, Ha, Hb.
  unfold SFltb, SFleb.
  destruct (Prim2SF f) as [[]|[]| |[] m e]; simpl; try done.
  destruct (e ?= ea) eqn:He1; try done; intros _.
  - apply Z.compare_eq in He1 as ->.
    by rewrite (proj2 (Z.compare_gt_iff eb ea)) by lia.
  - rewrite Z.compare_lt_iff in He1.
    by rewrite (proj2 (Z.compare_gt_iff eb e)) by lia.
Qed.

Lemma float_nan_leb_l x y :
  PrimFloat.is_nan x = true -> PrimFloat.leb x y = false.
Proof.
  unfold PrimFloat.is_nan. rewrite leb_spec, FloatAxioms.eqb_spec.
  unfold SFleb, SFeqb.
  destruct (Prim2SF x) as [[]|[]| |[] m e]; simpl; try done;
    by rewrite Z.compare_refl, Pos.compare_cont_refl.
Qed.

Lemma float_range_consts :
  Prim2SF (fc 1) = S754_finite false 4503599627370496 (-52) /\
  Prim2SF (fc 10) = S754_finite false 5629499534213120 (-49) /\
  Prim2SF (fc 11) = S754_finite false 6192449487634432 (-49) /\
  Prim2SF (fc 25) = S754_finite false 7036874417766400 (-48) /\
  Prim2SF (fc 26) = S754_finite false 7318349394477056 (-48) /\
  Prim2SF (fc 50) = S754_finite false 7036874417766400 (-47) /\
  Prim2SF (fc 51) = S754_finite false 7177611906121728 (-47) /\
  Prim2SF (fc 100) = S754_finite false 7036874417766400 (-46).
Proof. vm_compute. done. Qed.

Lemma unmatched_float f :
  unmatched f ->
  forall b, b ∈ LEVERAGE_BUCKETS -> in_range b (PFloat f) = false.
Proof.
  destruct float_range_consts as (H1 & H10 & H11 & H25 & H26 & H50 & H51 & H100).
  intros Hf b Hb. unfold LEVERAGE_BUCKETS in Hb.
  repeat (apply elem_of_cons in Hb as [->|Hb]); [| | | |by apply elem_of_nil in Hb];
    cbn [in_range lmin lmax fleb float64]; apply andb_false_iff;
    destruct Hf as [Hf|[Hf|[[Hf Hg]|[[Hf Hg]|[[Hf Hg]|Hf]]]]];
    first
      [ right; by apply float_ltb_not_geb
      | left; by apply float_ltb_not_geb
      | right; by apply float_nan_leb_l
      | right; by (eapply float_above_gap; [| | |exact Hf];
                   [eassumption|eassumption|lia])
      | left; by (eapply float_below_gap; [| | |exact Hf];
                  [eassumption|eassumption|lia])
      | left; by (eapply float_below_gap; [| | |exact Hg];
                  [eassumption|eassumption|lia]) ].
Qed.

Lemma float_add_0_l x :
  PrimFloat.is_nan x = false ->
  PrimFloat.eqb (PrimFloat.add (fzero : float) x) x = true.
Proof.
  intros Hnan. rewrite FloatAxioms.eqb_spec, add_spec.
  change (Prim2SF fzero) with (S754_zero false).
  assert (Prim2SF x <> S754_nan) as Hx.
  { unfold Prim2SF. rewrite Hnan. destruct (PrimFloat.is_zero x); [done|].
    destruct (PrimFloat.is_infinity x); [done|].
    destruct (FloatOps.Z.frexp x) as [r ex].
    destruct (shr_fexp _ _ _ _ _) as [sh e'].
    by destruct (shr_m sh). }
  destruct (Prim2SF x) as [s|s| |s m e]; try done.
  - by destruct s.
  - by destruct s.
  - unfold SF64add, SFadd, SFeqb, SFcompare.
    rewrite Z.compare_refl.
    destruct s; simpl; rewrite Pos.compare_cont_refl; done.
Qed.

Lemma running_head_float (d : list (float * bucket float)) ks lv :
  head (running d fzero ks) = Some lv ->
  PrimFloat.is_nan (value lv) = false ->
  feqb (cumulative lv) (value lv) = true.
Proof.
  destruct ks; simpl; [done|]. intros [= <-]. simpl. apply float_add_0_l.
Qed.
End Binary64Facts.


(** ** The classifier *)

Section ClassifierFacts.
Context {F : Type} `{PyFloat F}.

Lemma get_leverage_bucket_int (z : Z) :
  get_leverage_bucket (PInt z : pynum F) =
    if decide (1 <= z <= 10) then T10
    else if decide (11 <= z <= 25) then T25
    else if decide (26 <= z <= 50) then T50
    else T100.
Proof.
  unfold get_leverage_bucket. simpl.
  repeat case_decide;
    repeat match goal with
           | |- context [(?a <=? ?b)] => destruct (Z.leb_spec a b); simpl
           end; try done; lia.
Qed.

Lemma get_leverage_bucket_unmatched (v : pynum F) :
  (forall b, b ∈ LEVERAGE_BUCKETS -> in_range b v = false) ->
  get_leverage_bucket v = T100.
Proof.
  intros Hb. unfold get_leverage_bucket, LEVERAGE_BUCKETS in *. simpl.
  rewrite !Hb; [done|..]; set_solver.
Qed.
End ClassifierFacts.


(** ** Positions without a size *)

Lemma positionCount_counts {F : Type} `{PyFloat F}
    (all_positions : list (position F)) prices c prof :
  aggregate_coin all_positions prices c = Some (Some prof) ->
  positionCount prof = length (positions_of c all_positions).
Proof.
  unfold aggregate_coin. destruct (feqb _ fzero); [done|].
  destruct (positions_of c all_positions) as [|p l] eqn:Hl; [done|].
  destruct (coin_tally _ _); simpl; [|done]. by intros [= <-].
Qed.

Lemma descriptor_leverage_path {F : Type} `{PyFloat F} (kv : list (string * json F)) :
  (leverage_info ← py_get (JDict kv) "leverage" (JDict []);
   if is_dict leverage_info then py_get leverage_info "value" (JInt 1)
   else Some (JInt 1)) = Some (descriptor_leverage (JDict kv)).
Proof.
  simpl. by destruct (dict_lookup "leverage" kv) as [[| | | | | |d]|].
Qed.


(** ** The worked example, in binary64 *)

(** C8, as the code has it: at price 100 the window is [70, 130] and the 50
    buckets are 1.2 wide.  The long position liquidated at 85, worth 1000
    under label ['10x'], has bucket index 12; that bucket runs from 84.4 to
    85.6 and its representative price, the midpoint, is 85.  The result holds
    one long level, at price 85, with value 1000, cumulative value 1000 and
    ['10x'] sub-total 1000, no short level, a long total of 1000 and a
    position count of 1. *)
Theorem btc_example :
  let current_price : float := of_Q 100 in
  let pos : position float := sample_position "BTC" Long 85 1000 5 in
  let price_min := price_min_of current_price in
  let bucket_size := of_Q (12 # 10) in
  positionValue pos = of_Q 1000 /\
  leverageBucket pos = T10 /\
  price_min = of_Q 70 /\
  price_max_of current_price = of_Q 130 /\
  bucket_size_of current_price = Some bucket_size /\
  fdiv (fsub (liquidationPx pos) price_min) bucket_size ≫= trunc = Some 12 /\
  fadd price_min (fmul (of_Q 12) bucket_size) = of_Q (844 # 10) /\
  fadd price_min (fmul (of_Q 13) bucket_size) = of_Q (856 # 10) /\
  bucket_price_of price_min bucket_size (liquidationPx pos) = Some (of_Q 85) /\
  aggregate_liquidations [pos] btc_at_100 =
    Some [("BTC",
           {| currentPrice := of_Q 100;
              longLiquidations :=
                [{| price := of_Q 85; value := of_Q 1000;
                    cumulative := of_Q 1000;
                    v10x := of_Q 1000; v25x := of_Q 0; v50x := of_Q 0;
                    v100x := of_Q 0 |}];
              shortLiquidations := [];
              totalLongValue := of_Q 1000;
              totalShortValue := of_Q 0;
              positionCount := 1 |})].
Proof. vm_compute. repeat split. Qed.

(** ** Where the code departs from the specification *)



(** C4 fails when the primary source answers with an empty list: nothing is
    sent to the fallback source. *)
Lemma empty_primary_sends_no_fallback :
  ~ (forall net : network float,
       primary_yield net = [] ->
       secondary_attempts (fetch_leaderboard net).2 = 1%nat).
Proof.
  intros Hclaim. specialize (Hclaim empty_primary eq_refl).
  vm_compute in Hclaim. discriminate.
Qed.


(** C6 fails for a bare number: the descriptor 20 gives the leverage 1 and
    the label ['10x']. *)
Lemma bare_number_leverage_is_dropped :
  exists p,
    dict_lookup "leverage" (bare_leverage_fields (F := float)) = Some (JInt 20) /\
    entry_position float_of_string (entry_of bare_leverage_fields)
      = Some (Some p) /\
    leverage p = JInt 1 /\
    leverage p <> JInt 20 /\
    leverageBucket p = T10.
Proof.
  eexists. split; [reflexivity|]. split; [vm_compute; reflexivity|].
  split; [reflexivity|]. split; [discriminate|reflexivity].
Qed.

(** C8 fails on the representative price: the level sits at 85, more than
    half a unit away from 85.6. *)
Lemma btc_center_is_not_85_6 :
  exists prof lv,
    aggregate_liquidations (F := float) single_long btc_at_100
      = Some [("BTC", prof)] /\
    longLiquidations prof = [lv] /\
    price lv = of_Q 85 /\
    fltb (of_Q (1 # 2)) (fabs (fsub (price lv) (of_Q (856 # 10)))) = true.
Proof.
  eexists _, _. split; [vm_compute; reflexivity|].
  split; [reflexivity|]. split; vm_compute; reflexivity.
Qed.

(** ** The theorems at sample inputs *)




(** [leverage_from_descriptor] on a raw position with an object for a
    descriptor. *)
Lemma leverage_from_descriptor_sample :
  exists p pos,
    entry_position float_of_string (entry_of long_fields) = Some (Some p) /\
    py_get (entry_of long_fields) "position" (JDict []) = Some pos /\
    leverage p = descriptor_leverage pos /\
    leverage p = JInt 20 /\
    leverageBucket p = T25.
Proof.
  eexists _.
  assert (entry_position float_of_string (entry_of long_fields) = Some (Some _))
    as Hp by (vm_compute; reflexivity).
  destruct (leverage_from_descriptor float_of_string _ _ Hp)
    as (pos & Hpos & Hlev & _).
  exists pos. split; [exact Hp|]. split; [exact Hpos|]. split; [exact Hlev|].
  split; reflexivity.
Defined.

(** [no_prices_no_coins] on the venue whose price answer has one element. *)
Lemma no_prices_sample :
  fetch_current_prices float_of_string faulty_venue = ∅ /\
  (forall all_positions : list (position float),
     aggregate_liquidations all_positions
       (fetch_current_prices float_of_string faulty_venue) = Some []) /\
  exists n, main float_of_string faulty_venue =
              Some {| coins := []; data := []; tradersCount := n |}.
Proof.
  apply (no_prices_no_coins float_of_string faulty_venue).
  - reflexivity.
  - right. left. eexists. split; [vm_compute; reflexivity|]. simpl. lia.
Defined.

(** [account_failure_isolated] on the venue where [0xbad] cannot be read. *)
Lemma account_failure_sample :
  fetch_clearinghouse_state float_of_string faulty_venue (JStr "0xbad") = [] /\
  collect_positions float_of_string faulty_venue
    ([JStr "0xa"] ++ JStr "0xbad" :: [JStr "0xc"]) =
    collect_positions float_of_string faulty_venue [JStr "0xa"]
      ++ collect_positions float_of_string faulty_venue [JStr "0xc"] /\
  length (collect_positions float_of_string faulty_venue
            ([JStr "0xa"] ++ JStr "0xbad" :: [JStr "0xc"])) = 2%nat.
Proof.
  destruct (account_failure_isolated float_of_string faulty_venue
              (JStr "0xbad") [JStr "0xa"] [JStr "0xc"]
              ltac:(vm_compute; reflexivity)) as (Hbad & Hall & _).
  split; [exact Hbad|]. split; [exact Hall|]. vm_compute. reflexivity.
Defined.



(** ** Further facts: account discovery *)

Section GatherFacts.
Context {A B : Type}.

Lemma mapM_omap_cons (f : A -> option (option B)) x l :
  (found ← mapM f (x :: l); Some (omap id found)) =
  (y ← f x;
   rest ← (found ← mapM f l; Some (omap id found));
   Some (match y with Some b => b :: rest | None => rest end)).
Proof.
  simpl. destruct (f x) as [y|]; simpl; [|done].
  destruct (mapM f l) as [found|]; simpl; [|done].
  by destruct y.
Qed.

Lemma mapM_omap_length (f : A -> option (option B)) l out :
  (found ← mapM f l; Some (omap id found)) = Some out ->
  (length out <= length l)%nat.
Proof.
  revert out. induction l as [|x l IH]; intros out.
  - simpl. intros [= <-]. simpl. lia.
  - rewrite mapM_omap_cons. destruct (f x) as [y|]; simpl; [|done].
    destruct (found ← mapM f l; Some (omap id found)) as [rest|]; simpl; [|done].
    intros [= <-]. specialize (IH rest eq_refl). destruct y; simpl; lia.
Qed.

Lemma mapM_omap_Forall (P : B -> Prop) (f : A -> option (option B)) l out :
  (forall x b, f x = Some (Some b) -> P b) ->
  (found ← mapM f l; Some (omap id found)) = Some out ->
  Forall P out.
Proof.
  intros Hf. revert out. induction l as [|x l IH]; intros out.
  - simpl. intros [= <-]. constructor.
  - rewrite mapM_omap_cons. destruct (f x) as [y|] eqn:Hx; simpl; [|done].
    destruct (found ← mapM f l; Some (omap id found)) as [rest|]; simpl; [|done].
    intros [= <-]. specialize (IH rest eq_refl).
    destruct y; [constructor; eauto|done].
Qed.

Lemma mapM_omap_app (f : A -> option (option B)) l1 l2 :
  (found ← mapM f (l1 ++ l2); Some (omap id found)) =
  (out1 ← (found ← mapM f l1; Some (omap id found));
   out2 ← (found ← mapM f l2; Some (omap id found));
   Some (out1 ++ out2)).
Proof.
  induction l1 as [|x l1 IH].
  - simpl. by destruct (mapM f l2).
  - rewrite <- app_comm_cons, !mapM_omap_cons, IH.
    destruct (f x) as [y|]; simpl; [|done].
    destruct (found ← mapM f l1; Some (omap id found)) as [o1|]; simpl; [|done].
    destruct (found ← mapM f l2; Some (omap id found)) as [o2|]; simpl; [|done].
    by destruct y.
Qed.

Lemma mapM_omap_None (f : A -> option (option B)) l :
  Exists (fun x => f x = None) l ->
  (found ← mapM f l; Some (omap id found)) = None.
Proof.
  induction 1 as [x l Hx|x l _ IH]; rewrite mapM_omap_cons.
  - by rewrite Hx.
  - rewrite IH. by destruct (f x).
Qed.
End GatherFacts.

Section LeaderboardFacts.
Context {F : Type} `{PyFloat F}.

Lemma gather_length (pick : json F -> option (option (json F))) entries wallets :
  gather pick entries = Some wallets ->
  (length wallets <= length entries)%nat.
Proof. apply mapM_omap_length. Qed.

Lemma gather_Forall (P : json F -> Prop) pick entries wallets :
  (forall e w, pick e = Some (Some w) -> P w) ->
  gather pick entries = Some wallets -> Forall P wallets.
Proof. apply mapM_omap_Forall. Qed.

Lemma length_slice200 (v : json F) entries :
  py_slice200 v = Some entries -> (length entries <= 200)%nat.
Proof.
  destruct v; simpl; try done; intros [= <-]; rewrite length_take; lia.
Qed.

Lemma primary_wallets_length (data : json F) wallets :
  primary_wallets data = Some wallets -> (length wallets <= 200)%nat.
Proof.
  destruct data as [| | | | |l|kv]; simpl; try (intros [= <-]; simpl; lia).
  - intros Hg%gather_length. rewrite length_take in Hg. lia.
  - destruct (dict_lookup "leaderboardRows" kv) as [rows|];
      [|intros [= <-]; simpl; lia].
    destruct (py_slice200 rows) as [entries|] eqn:Hs; simpl; [|done].
    intros Hg%gather_length. apply length_slice200 in Hs. lia.
Qed.

Lemma secondary_wallets_length (data : json F) wallets :
  secondary_wallets data = Some wallets -> (length wallets <= 200)%nat.
Proof.
  destruct data as [| | | | |l|kv]; simpl; try (intros [= <-]; simpl; lia).
  intros Hg%gather_length. rewrite length_take in Hg. lia.
Qed.

Lemma row_wallet_truthy (e w : json F) :
  row_wallet e = Some (Some w) -> truthy w = true.
Proof.
  unfold row_wallet, py_or. destruct (py_get e "ethAddress" JNull) as [a|];
    simpl; [|done].
  destruct (truthy a) eqn:Ha; simpl.
  - rewrite Ha. by intros [= <-].
  - destruct (py_get e "user" JNull) as [b|]; simpl; [|done].
    destruct (truthy b) eqn:Hb; [by intros [= <-]|done].
Qed.

Lemma entry_wallet_like (e w : json F) :
  entry_wallet e = Some (Some w) -> wallet_like w.
Proof.
  unfold wallet_like. destruct e as [| | | |s|l|kv]; simpl; try done.
  - intros [= <-]. eauto.
  - unfold py_or.
    destruct (truthy (default JNull (dict_lookup "ethAddress" kv))) eqn:Ha; simpl.
    + rewrite Ha. simpl. rewrite Ha. intros [= <-]. auto.
    + destruct (truthy (default JNull (dict_lookup "user" kv))) eqn:Hb; simpl.
      * rewrite Hb. intros [= <-]. auto.
      * destruct (truthy (default JNull (dict_lookup "address" kv))) eqn:Hc;
          [intros [= <-]; auto|done].
Qed.

Lemma fallback_wallet_truthy (e w : json F) :
  fallback_wallet e = Some (Some w) -> truthy w = true.
Proof. destruct e; simpl; try done. apply row_wallet_truthy. Qed.

Lemma primary_wallets_like (data : json F) wallets :
  primary_wallets data = Some wallets -> Forall wallet_like wallets.
Proof.
  destruct data as [| | | | |l|kv]; simpl; try (intros [= <-]; constructor).
  - apply gather_Forall, entry_wallet_like.
  - destruct (dict_lookup "leaderboardRows" kv) as [rows|];
      [|intros [= <-]; constructor].
    destruct (py_slice200 rows) as [entries|]; simpl; [|done].
    apply gather_Forall. intros e w Hw. left. by eapply row_wallet_truthy.
Qed.

Lemma secondary_wallets_like (data : json F) wallets :
  secondary_wallets data = Some wallets -> Forall wallet_like wallets.
Proof.
  destruct data as [| | | | |l|kv]; simpl; try (intros [= <-]; constructor).
  apply gather_Forall. intros e w Hw. left. by eapply fallback_wallet_truthy.
Qed.

(** X1: whatever the two sources answer, [fetch_leaderboard] returns at most
    200 wallets. *)
Theorem leaderboard_at_most_200 (net : network F) :
  (length (fetch_leaderboard net).1 <= 200)%nat.
Proof.
  unfold fetch_leaderboard.
  destruct (get_leaderboard net ≫= primary_wallets) as [wallets|] eqn:Hp.
  - destruct (get_leaderboard net) as [data|]; simpl in Hp; [|done].
    by apply primary_wallets_length in Hp.
  - destruct (post_info net leaderboard_payload ≫= secondary_wallets)
      as [wallets|] eqn:Hs; simpl; [|lia].
    destruct (post_info net leaderboard_payload) as [data|]; simpl in Hs; [|done].
    by apply secondary_wallets_length in Hs.
Qed.

(** X2: every wallet [fetch_leaderboard] returns counts as true (it is not
    null, false, zero, or an empty string, list or object), or is a string
    taken from a bare-list answer of the primary source; from the fallback
    source only values that count as true are kept. *)
Theorem leaderboard_wallets_shape (net : network F) :
  Forall wallet_like (fetch_leaderboard net).1 /\
  (get_leaderboard net ≫= primary_wallets = None ->
   Forall (fun w => truthy w = true) (fetch_leaderboard net).1).
Proof.
  unfold fetch_leaderboard. split.
  - destruct (get_leaderboard net ≫= primary_wallets) as [wallets|] eqn:Hp.
    + destruct (get_leaderboard net) as [data|]; simpl in Hp; [|done].
      by apply primary_wallets_like in Hp.
    + destruct (post_info net leaderboard_payload ≫= secondary_wallets)
        as [wallets|] eqn:Hs; simpl; [|constructor].
      destruct (post_info net leaderboard_payload) as [data|]; simpl in Hs;
        [|done].
      by apply secondary_wallets_like in Hs.
  - intros ->.
    destruct (post_info net leaderboard_payload ≫= secondary_wallets)
      as [wallets|] eqn:Hs; simpl; [|constructor].
    destruct (post_info net leaderboard_payload) as [data|]; simpl in Hs; [|done].
    destruct data as [| | | | |l|kv]; simpl in Hs; try (injection Hs as <-; constructor).
    revert Hs. apply gather_Forall, fallback_wallet_truthy.
Qed.
End LeaderboardFacts.

(** ** Further facts: positions of an account *)

Section CollectorFacts.
Context {F : Type} `{PyFloat F}.
Variable float_of_str : string -> option F.

Lemma top_coin_tracked (v : json F) c : top_coin v = Some c -> c ∈ TOP_COINS.
Proof.
  destruct v as [| | | |s| |]; simpl; try done.
  case_bool_decide; [by intros [= <-]|done].
Qed.

Lemma entry_position_built (ap : json F) p :
  entry_position float_of_str ap = Some (Some p) -> built_position p.
Proof.
  unfold entry_position. intros Hp.
  destruct (py_get ap "position" (JDict [])) as [pos|]; simpl in Hp; [|done].
  destruct (py_get pos "coin" (JStr "")) as [c|]; simpl in Hp; [|done].
  destruct (top_coin c) as [cn|] eqn:Hc; [|done].
  destruct (py_get pos "liquidationPx" JNull) as [lq|]; simpl in Hp; [|done].
  destruct (py_get pos "entryPx" JNull) as [en|]; simpl in Hp; [|done].
  destruct (py_get pos "szi" (JStr "0")) as [sz|]; simpl in Hp; [|done].
  destruct (py_get pos "leverage" (JDict [])) as [info|]; simpl in Hp; [|done].
  destruct (truthy lq && truthy en); [|done].
  destruct (if truthy sz then py_float float_of_str sz else Some fzero)
    as [sf|]; simpl in Hp; [|done].
  destruct (if is_dict info then py_get info "value" (JInt 1) else Some (JInt 1))
    as [lev|]; simpl in Hp; [|done].
  destruct (py_float float_of_str en) as [e|]; simpl in Hp; [|done].
  destruct (py_float float_of_str lq) as [l|]; simpl in Hp; [|done].
  destruct (as_number lev) as [n|] eqn:Hn; simpl in Hp; [|done].
  simplify_eq. repeat split; simpl; eauto using top_coin_tracked.
Qed.

Lemma state_positions_built (data : json F) positions :
  state_positions float_of_str data = Some positions ->
  Forall built_position positions.
Proof.
  unfold state_positions.
  destruct (py_get data "assetPositions" (JList [])) as [aps|]; simpl; [|done].
  destruct (py_iter aps) as [entries|]; simpl; [|done].
  apply mapM_omap_Forall, entry_position_built.
Qed.

Lemma fetch_clearinghouse_state_built (net : network F) wallet :
  Forall built_position (fetch_clearinghouse_state float_of_str net wallet).
Proof.
  unfold fetch_clearinghouse_state.
  destruct (post_info net (clearinghouse_payload wallet) ≫= state_positions float_of_str)
    as [positions|] eqn:Hs; simpl; [|constructor].
  destruct (post_info net (clearinghouse_payload wallet)) as [data|];
    simpl in Hs; [|done].
  by apply state_positions_built in Hs.
Qed.

(** X3: every position [main] collects, from whatever the venue answers, is
    for a coin of [TOP_COINS], has a value equal to its size times its entry
    price, and carries the label [get_leverage_bucket] gives its leverage,
    which is a number. *)
Theorem collected_positions_built (net : network F) wallets :
  Forall built_position (collect_positions float_of_str net wallets).
Proof.
  induction wallets as [|w wallets IH].
  - constructor.
  - rewrite collect_positions_cons. apply Forall_app. split; [|done].
    apply fetch_clearinghouse_state_built.
Qed.

(** X4: the positions of an account are all or nothing.  When reading one
    entry of [assetPositions] raises, [fetch_clearinghouse_state] returns the
    empty list, whatever the other entries hold. *)
Theorem one_bad_entry_voids_account (net : network F) wallet data entries :
  post_info net (clearinghouse_payload wallet) = Some data ->
  py_get data "assetPositions" (JList []) = Some (JList entries) ->
  Exists (fun ap => entry_position float_of_str ap = None) entries ->
  fetch_clearinghouse_state float_of_str net wallet = [].
Proof.
  intros Hdata Haps Hbad. unfold fetch_clearinghouse_state, state_positions.
  rewrite Hdata. simpl. rewrite Haps. simpl.
  by rewrite mapM_omap_None.
Qed.

(** X5: an entry whose coin is not in [TOP_COINS], or whose liquidation or
    entry price is missing or counts as false, is passed over without its
    other fields being read: with or without it the account gives the same
    positions, or fails the same way. *)
Theorem skipped_entry_changes_nothing (ap : json F) kv l1 l2 :
  py_get ap "position" (JDict []) = Some (JDict kv) ->
  top_coin (default (JStr "") (dict_lookup "coin" kv)) = None \/
  truthy (default JNull (dict_lookup "liquidationPx" kv)) = false \/
  truthy (default JNull (dict_lookup "entryPx" kv)) = false ->
  entry_position float_of_str ap = Some None /\
  state_positions float_of_str (state_with (l1 ++ ap :: l2)) =
  state_positions float_of_str (state_with (l1 ++ l2)).
Proof.
  intros Hpos Hskip.
  assert (entry_position float_of_str ap = Some None) as Hnone.
  { unfold entry_position. rewrite Hpos. simpl.
    destruct (top_coin (default (JStr "") (dict_lookup "coin" kv))) as [c|];
      [|done].
    destruct Hskip as [?|[-> | ->]]; [done|done|].
    by rewrite andb_false_r. }
  split; [done|].
  unfold state_positions, state_with. simpl.
  rewrite !mapM_omap_app, mapM_omap_cons, Hnone. simpl.
  destruct (found ← mapM (entry_position float_of_str) l1; Some (omap id found));
    simpl; [|done].
  by destruct (found ← mapM (entry_position float_of_str) l2; Some (omap id found)).
Qed.
End CollectorFacts.

(** ** Further facts: prices *)

Section PriceFacts.
Context {F : Type} `{PyFloat F}.
Variable float_of_str : string -> option F.

Lemma price_step_tracked contexts (prices prices' : gmap string F) i asset :
  map_Forall (fun c _ => c ∈ TOP_COINS) prices ->
  price_step float_of_str contexts prices i asset = Some prices' ->
  map_Forall (fun c _ => c ∈ TOP_COINS) prices'.
Proof.
  intros Hp. unfold price_step.
  destruct (py_get asset "name" (JStr "")) as [c|]; simpl; [|done].
  destruct (top_coin c) as [cn|] eqn:Hc; [|by intros [= <-]].
  destruct (py_len contexts) as [n|]; simpl; [|done].
  case_bool_decide; [|by intros [= <-]].
  destruct (py_index contexts i) as [ctx|]; simpl; [|done].
  destruct (py_get ctx "markPx" (JInt 0)) as [raw|]; simpl; [|done].
  destruct (py_float float_of_str _) as [mp|]; simpl; [|done].
  intros [= <-]. apply map_Forall_insert_2; [|done].
  by eapply top_coin_tracked.
Qed.

Lemma price_loop_tracked contexts (prices prices' : gmap string F) i assets :
  map_Forall (fun c _ => c ∈ TOP_COINS) prices ->
  price_loop float_of_str contexts prices i assets = Some prices' ->
  map_Forall (fun c _ => c ∈ TOP_COINS) prices'.
Proof.
  revert prices i. induction assets as [|a assets IH]; intros prices i Hp; simpl.
  - by intros [= <-].
  - destruct (price_step float_of_str contexts prices i a) as [p1|] eqn:Hs;
      simpl; [|done].
    apply IH. by eapply price_step_tracked.
Qed.

(** X6: whatever the venue answers, [fetch_current_prices] holds prices for
    coins of [TOP_COINS] only. *)
Theorem prices_only_for_tracked (net : network F) :
  map_Forall (fun c _ => c ∈ TOP_COINS) (fetch_current_prices float_of_str net).
Proof.
  unfold fetch_current_prices.
  destruct (post_info net prices_payload ≫= context_prices float_of_str)
    as [prices|] eqn:Hp; simpl; [|apply map_Forall_empty].
  destruct (post_info net prices_payload) as [data|]; simpl in Hp; [|done].
  unfold context_prices in Hp.
  destruct (py_len data) as [n|]; simpl in Hp; [|done].
  case_bool_decide; [|injection Hp as <-; apply map_Forall_empty].
  destruct (py_index data 0) as [meta|]; simpl in Hp; [|done].
  destruct (py_index data 1) as [contexts|]; simpl in Hp; [|done].
  destruct (py_get meta "universe" (JList [])) as [u|]; simpl in Hp; [|done].
  destruct (py_iter u) as [assets|]; simpl in Hp; [|done].
  eapply price_loop_tracked; [|exact Hp]. apply map_Forall_empty.
Qed.
End PriceFacts.


(** ** Further facts: the result of the aggregation *)

Section ResultFacts.
Context {F : Type} `{PyFloat F}.
Implicit Types (all_positions : list (position F)) (prices : gmap string F).

Lemma aggregate_coin_no_positions prices c :
  aggregate_coin ([] : list (position F)) prices c = Some None.
Proof. unfold aggregate_coin. simpl. by destruct (feqb _ fzero). Qed.

Lemma aggregate_coins_no_positions prices cs result :
  aggregate_coins ([] : list (position F)) prices cs result = Some result.
Proof.
  induction cs as [|c cs IH]; simpl; [done|].
  by rewrite aggregate_coin_no_positions.
Qed.

Lemma aggregate_coins_keys all_positions prices coins result res :
  aggregate_coins all_positions prices coins result = Some res ->
  exists added, res = result ++ added /\ added.*1 `sublist_of` coins.
Proof.
  revert result. induction coins as [|c coins IH]; intros result; simpl.
  - intros [= <-]. exists []. by rewrite app_nil_r.
  - destruct (aggregate_coin all_positions prices c) as [r|]; simpl; [|done].
    intros (added & -> & Hsub)%IH. destruct r as [prof|].
    + exists ((c, prof) :: added). rewrite <- app_assoc. split; [done|].
      simpl. by apply sublist_skip.
    + exists added. split; [done|]. by apply sublist_cons.
Qed.

Lemma aggregate_coin_same_positions all_positions all_positions' prices c :
  positions_of c all_positions = positions_of c all_positions' ->
  aggregate_coin all_positions prices c = aggregate_coin all_positions' prices c.
Proof. unfold aggregate_coin. by intros ->. Qed.

Lemma aggregate_coins_same_positions all_positions all_positions' prices coins result :
  (forall c, c ∈ coins ->
     positions_of c all_positions = positions_of c all_positions') ->
  aggregate_coins all_positions prices coins result =
  aggregate_coins all_positions' prices coins result.
Proof.
  revert result. induction coins as [|c coins IH]; intros result Hsame; simpl;
    [done|].
  rewrite (aggregate_coin_same_positions all_positions all_positions')
    by (apply Hsame; apply list_elem_of_here).
  destruct (aggregate_coin all_positions' prices c); simpl; [|done].
  apply IH. intros c' Hc'. apply Hsame. by apply list_elem_of_further.
Qed.

(** X8: the coins of the result come in the order of [TOP_COINS], each at
    most once. *)
Theorem result_coins_in_order all_positions prices res :
  aggregate_liquidations all_positions prices = Some res ->
  res.*1 `sublist_of` TOP_COINS /\ NoDup res.*1.
Proof.
  intros (added & -> & Hsub)%aggregate_coins_keys. simpl.
  split; [done|]. eapply sublist_NoDup; [|exact Hsub].
  by apply (bool_decide_unpack _).
Qed.

(** X9: a profile in the result is for a coin of [TOP_COINS]; its
    [currentPrice] is the price of the coin in the snapshot, which does not
    equal zero; its [positionCount] is the number of positions of that coin
    in the input, in or out of the window, and is at least 1. *)
Theorem profile_header all_positions prices res c prof :
  aggregate_liquidations all_positions prices = Some res ->
  (c, prof) ∈ res ->
  c ∈ TOP_COINS /\
  currentPrice prof = default fzero (prices !! c) /\
  feqb (currentPrice prof) fzero = false /\
  positionCount prof = length (positions_of c all_positions) /\
  (1 <= positionCount prof)%nat.
Proof.
  intros Hres Hin.
  apply (aggregate_liquidations_elem _ _ _ _ _ Hres) in Hin as [Hc Hprof].
  split; [done|]. unfold aggregate_coin in Hprof.
  destruct (feqb (default fzero (prices !! c)) fzero) eqn:Hz; [done|].
  destruct (positions_of c all_positions) as [|p l]; [done|].
  destruct (coin_tally _ _) as [st|]; simpl in Hprof; [|done].
  simplify_eq. simpl. repeat split; [done|lia].
Qed.

(** X10: the result depends on the input list only through the positions of
    each coin of [TOP_COINS], taken in order: positions of other coins, and
    the way positions of different coins are interleaved, play no part. *)
Theorem result_depends_on_coin_positions all_positions all_positions' prices :
  (forall c, c ∈ TOP_COINS ->
     positions_of c all_positions = positions_of c all_positions') ->
  aggregate_liquidations all_positions prices =
  aggregate_liquidations all_positions' prices.
Proof. apply aggregate_coins_same_positions. Qed.
End ResultFacts.

Section RunFacts.
Context {F : Type} `{PyFloat F}.
Variable float_of_str : string -> option F.

(** X7: when the accounts found hold no position of a tracked coin (or no
    account is found), [main] ends with a snapshot without coins, whatever
    the prices are, and [tradersCount] is the number of accounts found. *)
Theorem no_positions_empty_snapshot (net : network F) :
  collect_positions float_of_str net (fetch_leaderboard net).1 = [] ->
  main float_of_str net =
    Some {| coins := []; data := [];
            tradersCount := length (fetch_leaderboard net).1 |}.
Proof.
  intros Hnone. unfold main. rewrite Hnone.
  unfold aggregate_liquidations. by rewrite aggregate_coins_no_positions.
Qed.
End RunFacts.


(** ** Further facts: the two sides of a histogram *)

Section SideFacts.
Context {F : Type} `{PyFloat F}.
Implicit Types (st : tally F) (pos : position F) (d : list (F * bucket F)).

Lemma dd_update_length k f d :
  (length d <= length (dd_update k f d) <= S (length d))%nat /\
  (1 <= length (dd_update k f d))%nat.
Proof.
  induction d as [|[k' b] d IH]; simpl; [lia|].
  destruct (feqb k' k); simpl; lia.
Qed.

Lemma side_dict_add_same st pos bp :
  side_dict (side pos) (add_position st pos bp) =
    dd_update bp (add_value (leverageBucket pos) (positionValue pos))
      (side_dict (side pos) st) /\
  side_total (side pos) (add_position st pos bp) =
    fadd (side_total (side pos) st) (positionValue pos).
Proof. unfold add_position. by destruct (side pos). Qed.

Lemma side_dict_add_other st pos bp s :
  side pos <> s ->
  side_dict s (add_position st pos bp) = side_dict s st /\
  side_total s (add_position st pos bp) = side_total s st.
Proof. unfold add_position. by destruct (side pos), s. Qed.

(** The position loop on a list and on its positions of one side. *)
Lemma place_all_on_side pmin pmax bs s st st' st0 l :
  place_all pmin pmax bs st l = Some st' ->
  side_dict s st0 = side_dict s st -> side_total s st0 = side_total s st ->
  exists st0',
    place_all pmin pmax bs st0 (on_side s l) = Some st0' /\
    side_dict s st0' = side_dict s st' /\
    side_total s st0' = side_total s st' /\
    side_dict (other_side s) st0' = side_dict (other_side s) st0 /\
    side_total (other_side s) st0' = side_total (other_side s) st0.
Proof.
  revert st st0. induction l as [|p l IH]; intros st st0; simpl.
  - intros [= <-] Hd Ht. exists st0. by rewrite Hd, Ht.
  - destruct (place pmin pmax bs st p) as [st1|] eqn:Hp; simpl; [|done].
    intros Hrest Hd Ht. unfold on_side. rewrite filter_cons.
    destruct (decide (side p = s)) as [Hs|Hs].
    + simpl. unfold place in Hp |- *.
      destruct (in_window pmin pmax (liquidationPx p)).
      * destruct (bucket_price_of pmin bs (liquidationPx p)) as [bp|];
          simpl in Hp |- *; [|done].
        injection Hp as <-.
        destruct (side_dict_add_same st p bp) as [Hd1 Ht1].
        destruct (side_dict_add_same st0 p bp) as [Hd0 Ht0].
        rewrite Hs in Hd1, Ht1, Hd0, Ht0.
        destruct (IH _ (add_position st0 p bp) Hrest)
          as (st0' & Hrun & Hd' & Ht' & Ho & Hot).
        { by rewrite Hd0, Hd1, Hd. }
        { by rewrite Ht0, Ht1, Ht. }
        exists st0'. split; [done|]. split; [done|]. split; [done|].
        assert (side p <> other_side s) as Hne by (rewrite Hs; by destruct s).
        destruct (side_dict_add_other st0 p bp _ Hne) as [Ho0 Hot0].
        by rewrite Ho, Hot, Ho0, Hot0.
      * injection Hp as <-. by apply (IH st st0).
    + apply (IH st1 st0); [done|..].
      * rewrite Hd. unfold place in Hp.
        destruct (in_window pmin pmax (liquidationPx p)); [|by injection Hp as <-].
        destruct (bucket_price_of pmin bs (liquidationPx p)) as [bp|];
          simpl in Hp; [|done].
        injection Hp as <-. symmetry. by apply side_dict_add_other.
      * rewrite Ht. unfold place in Hp.
        destruct (in_window pmin pmax (liquidationPx p)); [|by injection Hp as <-].
        destruct (bucket_price_of pmin bs (liquidationPx p)) as [bp|];
          simpl in Hp; [|done].
        injection Hp as <-. symmetry. by apply side_dict_add_other.
Qed.

Lemma coin_tally_on_side price s l st :
  coin_tally price l = Some st ->
  exists st_s,
    coin_tally price (on_side s l) = Some st_s /\
    side_dict s st_s = side_dict s st /\
    side_total s st_s = side_total s st /\
    side_dict (other_side s) st_s = [] /\
    side_total (other_side s) st_s = fzero.
Proof.
  unfold coin_tally. destruct (bucket_size_of price) as [bs|]; simpl; [|done].
  intros Hst.
  destruct (place_all_on_side _ _ _ s _ _ empty_tally _ Hst eq_refl eq_refl)
    as (st_s & Hrun & Hd & Ht & Ho & Hot).
  exists st_s. repeat split; try done.
  - rewrite Ho. by destruct s.
  - rewrite Hot. by destruct s.
Qed.

Lemma positions_of_on_side c s (l : list (position F)) :
  positions_of c (on_side s l) = on_side s (positions_of c l).
Proof.
  unfold positions_of, on_side. induction l as [|p l IH]; [done|].
  rewrite !filter_cons.
  destruct (decide (side p = s)), (decide (coin p = c));
    rewrite ?filter_cons, ?decide_True, ?decide_False by done; by rewrite IH.
Qed.

Lemma side_levels_make price st n s :
  side_levels s (make_profile price st n) =
  sort_by_price
    (running (side_dict s st) fzero
       (match s with
        | Long => py_sorted_reverse fltb (side_dict s st).*1
        | Short => py_sorted fltb (side_dict s st).*1
        end)).
Proof. by destruct s. Qed.

(** X11: the two sides of a coin do not mix.  When a coin has a profile and
    positions on side [s], aggregating the positions of side [s] alone gives
    that coin a profile with the same levels and the same total on side [s],
    and nothing on the other side. *)
Theorem side_alone (all_positions : list (position F)) prices c prof s :
  aggregate_coin all_positions prices c = Some (Some prof) ->
  on_side s (positions_of c all_positions) <> [] ->
  exists prof',
    aggregate_coin (on_side s all_positions) prices c = Some (Some prof') /\
    side_levels s prof' = side_levels s prof /\
    side_value s prof' = side_value s prof /\
    side_levels (other_side s) prof' = [] /\
    side_value (other_side s) prof' = fzero.
Proof.
  unfold aggregate_coin. rewrite positions_of_on_side.
  destruct (feqb _ fzero); [done|].
  destruct (positions_of c all_positions) as [|p l] eqn:Hl; [done|].
  destruct (coin_tally _ (p :: l)) as [st|] eqn:Hst; simpl; [|done].
  intros [= <-] Hne.
  destruct (coin_tally_on_side _ s _ _ Hst) as (st_s & Hrun & Hd & Ht & Ho & Hot).
  destruct (on_side s (p :: l)) as [|q r] eqn:Hs; [done|].
  rewrite Hrun. simpl. eexists. split; [done|].
  rewrite !side_levels_make, Hd, Ho. repeat split.
  - by destruct s.
  - by destruct s.
  - by destruct s.
Qed.
End SideFacts.

Section LevelFacts.
Context {F : Type} `{PyFloat F}.
Implicit Types (st : tally F) (pos : position F) (d : list (F * bucket F)).

Lemma running_length d cum (ks : list F) :
  length (running d cum ks) = length ks.
Proof.
  revert cum. induction ks as [|k ks IH]; intros cum; simpl; [done|].
  by rewrite IH.
Qed.

Lemma side_levels_length price st n s :
  length (side_levels s (make_profile price st n)) = length (side_dict s st).
Proof.
  rewrite side_levels_make, sort_by_price_perm, running_length.
  destruct s;
    by rewrite ?py_sorted_reverse_perm, ?py_sorted_perm, length_fmap.
Qed.

Lemma place_all_side_length price bs s st st' l :
  place_all (price_min_of price) (price_max_of price) bs st l = Some st' ->
  (length (side_dict s st) <= length (side_dict s st'))%nat /\
  (length (side_dict s st')
     <= length (side_dict s st) + length (placed price s l))%nat /\
  (placed price s l <> [] -> 1 <= length (side_dict s st'))%nat.
Proof.
  revert st. induction l as [|p l IH]; intros st; simpl.
  - intros [= <-]. unfold placed. rewrite filter_nil. simpl.
    split; [lia|]. split; [lia|done].
  - destruct (place _ _ bs st p) as [st1|] eqn:Hp; simpl; [|done].
    intros (Hlo & Hhi & Hne)%IH. unfold placed in *. rewrite filter_cons.
    unfold place in Hp.
    change (in_window (price_min_of price) (price_max_of price) (liquidationPx p))
      with (in_window_of price p) in Hp.
    destruct (decide (side p = s /\ in_window_of price p = true)) as [[Hs Hw]|Hn].
    + rewrite Hw in Hp.
      destruct (bucket_price_of _ bs (liquidationPx p)) as [bp|];
        simpl in Hp; [|done].
      injection Hp as <-.
      destruct (side_dict_add_same st p bp) as [Hd _]. rewrite Hs in Hd.
      rewrite Hd in Hlo, Hhi.
      pose proof (dd_update_length bp
        (add_value (leverageBucket p) (positionValue p)) (side_dict s st)).
      simpl. split; [lia|]. split; [lia|]. intros _. lia.
    + assert (side_dict s st1 = side_dict s st) as Hd.
      { destruct (in_window_of price p) eqn:Hw; [|by injection Hp as <-].
        destruct (bucket_price_of _ bs (liquidationPx p)) as [bp|];
          simpl in Hp; [|done].
        injection Hp as <-. apply side_dict_add_other. tauto. }
      rewrite Hd in Hlo, Hhi. done.
Qed.

(** X12: a side of a profile has at most as many levels as the coin has
    positions of that side inside the window, and has no level exactly when
    it has no such position. *)
Theorem side_level_count (all_positions : list (position F)) prices res c prof s :
  aggregate_liquidations all_positions prices = Some res ->
  (c, prof) ∈ res ->
  let inside := placed (currentPrice prof) s (positions_of c all_positions) in
  (length (side_levels s prof) <= length inside)%nat /\
  (side_levels s prof = [] <-> inside = []).
Proof.
  intros Hres Hin.
  apply (aggregate_liquidations_elem _ _ _ _ _ Hres) in Hin as [_ Hprof].
  unfold aggregate_coin in Hprof.
  destruct (feqb _ fzero); [done|].
  destruct (positions_of c all_positions) as [|p l]; [done|].
  destruct (coin_tally _ (p :: l)) as [st|] eqn:Hst; simpl in Hprof; [|done].
  injection Hprof as <-. cbn [currentPrice make_profile].
  unfold coin_tally in Hst.
  destruct (bucket_size_of _) as [bs|]; [|done].
  destruct (place_all_side_length (default fzero (prices !! c)) bs s
              empty_tally st (p :: l) Hst) as (_ & Hhi & Hne).
  assert (side_dict s empty_tally = []) as He by (by destruct s).
  rewrite He in Hhi. change (length (@nil (F * bucket F))) with 0%nat in Hhi.
  cbv zeta.
  pose proof (side_levels_length (default fzero (prices !! c)) st
                (S (length l)) s) as Hlen.
  split; [lia|]. split.
  - intros Hnil. rewrite Hnil in Hlen. simpl in Hlen.
    destruct (placed _ s (p :: l)) as [|q r] eqn:Hpl; [done|].
    assert (1 <= length (side_dict s st))%nat by (by apply Hne). lia.
  - intros Hnil. rewrite Hnil in Hhi. simpl in Hhi.
    apply length_zero_iff_nil. lia.
Qed.

Lemma running_running_from d cum (ks : list F) :
  running_from cum (running d cum ks).
Proof.
  revert cum. induction ks as [|k ks IH]; intros cum; simpl; [done|].
  split; [done|apply IH].
Qed.

(** X13: in any arithmetic, the cumulative values of a side are running
    sums: a profile's side is the display sort of a list in which the first
    level has cumulative value 0 + its value and every later level has the
    cumulative value of the level before it + its own value. *)
Theorem cumulative_is_running_sum (all_positions : list (position F)) prices res c prof :
  aggregate_liquidations all_positions prices = Some res ->
  (c, prof) ∈ res ->
  exists long_data short_data,
    longLiquidations prof = sort_by_price long_data /\
    shortLiquidations prof = sort_by_price short_data /\
    running_from fzero long_data /\
    running_from fzero short_data.
Proof.
  intros Hres Hin.
  apply (aggregate_liquidations_elem _ _ _ _ _ Hres) in Hin as [_ Hprof].
  unfold aggregate_coin in Hprof.
  destruct (feqb _ fzero); [done|].
  destruct (positions_of c all_positions) as [|p l]; [done|].
  destruct (coin_tally _ (p :: l)) as [st|]; simpl in Hprof; [|done].
  injection Hprof as <-.
  exists (long_levels st), (short_levels st). simpl.
  repeat split; apply running_running_from.
Qed.
End LevelFacts.


(** ** Further facts: errors in the aggregation *)

Section RaiseFacts.
Context {F : Type} `{PyFloat F}.
Implicit Types (st : tally F) (pos : position F).

Lemma place_all_raises pmin pmax bs st l pos :
  pos ∈ l ->
  in_window pmin pmax (liquidationPx pos) = true ->
  bucket_price_of pmin bs (liquidationPx pos) = None ->
  place_all pmin pmax bs st l = None.
Proof.
  intros Hin Hw Hb. revert st. induction l as [|q l IH]; intros st.
  - by apply elem_of_nil in Hin.
  - simpl. apply elem_of_cons in Hin as [<-|Hin].
    + unfold place. by rewrite Hw, Hb.
    + destruct (place pmin pmax bs st q); simpl; [by apply IH|done].
Qed.

Lemma aggregate_coins_raises (all_positions : list (position F)) prices coins result c :
  c ∈ coins ->
  aggregate_coin all_positions prices c = None ->
  aggregate_coins all_positions prices coins result = None.
Proof.
  intros Hin Hc. revert result. induction coins as [|c0 coins IH]; intros result.
  - by apply elem_of_nil in Hin.
  - simpl. apply elem_of_cons in Hin as [<-|Hin].
    + by rewrite Hc.
    + destruct (aggregate_coin all_positions prices c0); simpl; [by apply IH|done].
Qed.

(** X14: the aggregation has no handler of its own.  When the bucket of one
    position cannot be computed (the division by the bucket width or the
    conversion to an index raises), for a position inside the window of a
    tracked coin with a price, [aggregate_liquidations] raises: no profile
    is returned for any coin. *)
Theorem one_bad_bucket_fails_all (all_positions : list (position F)) prices pos :
  let c := coin pos in
  let current_price := default fzero (prices !! c) in
  c ∈ TOP_COINS ->
  feqb current_price fzero = false ->
  pos ∈ all_positions ->
  in_window_of current_price pos = true ->
  (forall bucket_size,
     bucket_size_of current_price = Some bucket_size ->
     bucket_price_of (price_min_of current_price) bucket_size
       (liquidationPx pos) = None) ->
  aggregate_liquidations all_positions prices = None.
Proof.
  intros c current_price Hc Hz Hin Hw Hb.
  apply (aggregate_coins_raises _ _ _ _ c Hc).
  unfold aggregate_coin. fold current_price. rewrite Hz.
  assert (pos ∈ positions_of c all_positions) as Hpos.
  { unfold positions_of. by apply list_elem_of_filter. }
  destruct (positions_of c all_positions) as [|p l] eqn:Hl.
  { by apply elem_of_nil in Hpos. }
  unfold coin_tally.
  destruct (bucket_size_of current_price) as [bs|] eqn:Hbs; [|done].
  pose proof (place_all_raises _ _ bs empty_tally (p :: l) pos Hpos Hw
                (Hb bs eq_refl)) as Hraise.
  simpl in Hraise |- *. by rewrite Hraise.
Qed.
End RaiseFacts.


(** ** The further facts at sample inputs *)

(** An account with a sound position and one whose leverage is the string
    "20" yields nothing. *)
Lemma one_bad_entry_sample :
  fetch_clearinghouse_state float_of_string
    (one_account
       (state_with [entry_of long_fields; entry_of string_leverage_fields]))
    (JStr "0xa") = [].
Proof.
  eapply (one_bad_entry_voids_account float_of_string).
  - reflexivity.
  - reflexivity.
  - apply Exists_cons_tl, Exists_cons_hd. vm_compute. reflexivity.
Defined.

(** An entry of a coin that is not tracked, with unreadable fields, is
    passed over. *)
Lemma skipped_entry_sample :
  entry_position float_of_string (entry_of untracked_fields) = Some None /\
  state_positions float_of_string
    (state_with ([entry_of long_fields] ++ entry_of untracked_fields :: [])) =
  state_positions float_of_string (state_with ([entry_of long_fields] ++ [])).
Proof.
  apply (skipped_entry_changes_nothing float_of_string
           (entry_of untracked_fields) untracked_fields).
  - reflexivity.
  - left. vm_compute. reflexivity.
Defined.

(** No account found: an empty snapshot. *)
Lemma no_positions_sample :
  main float_of_string empty_primary =
    Some {| coins := []; data := []; tradersCount := 0 |}.
Proof.
  apply (no_positions_empty_snapshot float_of_string empty_primary).
  vm_compute. reflexivity.
Defined.

Lemma result_coins_sample :
  exists res,
    aggregate_liquidations (F := float) spread_longs btc_at_100 = Some res /\
    res.*1 `sublist_of` TOP_COINS /\ NoDup res.*1.
Proof.
  eexists. split; [vm_compute; reflexivity|].
  eapply (result_coins_in_order (F := float) spread_longs btc_at_100).
  vm_compute. reflexivity.
Defined.

Lemma profile_header_sample :
  exists res prof,
    aggregate_liquidations (F := float) ([at_floor] ++ beyond :: [at_ceiling])
      btc_at_100 = Some res /\
    ("BTC", prof) ∈ res /\
    currentPrice prof = of_Q 100 /\
    positionCount prof = 3%nat.
Proof.
  eexists _, _.
  assert (aggregate_liquidations (F := float)
            ([at_floor] ++ beyond :: [at_ceiling]) btc_at_100 = Some _)
    as Hres by (vm_compute; reflexivity).
  destruct (profile_header (F := float) _ _ _ "BTC" _ Hres
              (list_elem_of_here _ _)) as (_ & Hprice & _ & Hcount & _).
  split; [exact Hres|]. split; [apply list_elem_of_here|].
  split; [exact Hprice|exact Hcount].
Defined.

(** A position of a coin that is not tracked changes nothing. *)
Lemma stray_position_sample :
  aggregate_liquidations (F := float) single_long btc_at_100 =
  aggregate_liquidations (F := float) (stray :: single_long) btc_at_100.
Proof.
  apply (result_depends_on_coin_positions (F := float)).
  intros c Hc. unfold TOP_COINS in Hc.
  repeat (apply elem_of_cons in Hc as [->|Hc]); try reflexivity.
  by apply elem_of_nil in Hc.
Defined.

(** The long side of a coin with a long and a short position. *)
Lemma side_alone_sample :
  exists prof prof',
    aggregate_coin (F := float) [at_floor; at_ceiling] btc_at_100 "BTC"
      = Some (Some prof) /\
    aggregate_coin (F := float) (on_side Long [at_floor; at_ceiling])
      btc_at_100 "BTC" = Some (Some prof') /\
    longLiquidations prof' = longLiquidations prof /\
    totalLongValue prof' = totalLongValue prof /\
    shortLiquidations prof' = [].
Proof.
  eexists _.
  assert (aggregate_coin (F := float) [at_floor; at_ceiling] btc_at_100 "BTC"
          = Some (Some _)) as Hprof by (vm_compute; reflexivity).
  destruct (side_alone (F := float) _ _ _ _ Long Hprof)
    as (prof' & Hrun & Hl & Hv & Ho & _); [by vm_compute|].
  exists prof'. split; [exact Hprof|]. split; [exact Hrun|].
  split; [exact Hl|]. split; [exact Hv|exact Ho].
Defined.

(** Two short positions, one inside the window: one short level. *)
Lemma side_level_count_sample :
  exists res prof,
    aggregate_liquidations (F := float) ([at_floor] ++ beyond :: [at_ceiling])
      btc_at_100 = Some res /\
    ("BTC", prof) ∈ res /\
    (length (shortLiquidations prof) <= 1)%nat /\
    shortLiquidations prof <> [].
Proof.
  eexists _, _.
  assert (aggregate_liquidations (F := float)
            ([at_floor] ++ beyond :: [at_ceiling]) btc_at_100 = Some _)
    as Hres by (vm_compute; reflexivity).
  destruct (side_level_count (F := float) _ _ _ "BTC" _ Short Hres
              (list_elem_of_here _ _)) as [Hle Hnil].
  split; [exact Hres|]. split; [apply list_elem_of_here|].
  split; [exact Hle|]. intros Hempty. apply Hnil in Hempty.
  vm_compute in Hempty. discriminate.
Defined.

Lemma running_sum_sample :
  exists res prof long_data,
    aggregate_liquidations (F := float) spread_longs btc_at_100 = Some res /\
    ("BTC", prof) ∈ res /\
    longLiquidations prof = sort_by_price long_data /\
    running_from fzero long_data.
Proof.
  eexists _, _.
  assert (aggregate_liquidations (F := float) spread_longs btc_at_100 = Some _)
    as Hres by (vm_compute; reflexivity).
  destruct (cumulative_is_running_sum (F := float) _ _ _ "BTC" _ Hres
              (list_elem_of_here _ _)) as (ld & _ & Hl & _ & Hr & _).
  exists ld. split; [exact Hres|]. split; [apply list_elem_of_here|].
  split; [exact Hl|exact Hr].
Defined.

(** At the smallest positive price of binary64 the bucket width is zero and
    the division raises. *)
Lemma bad_bucket_sample :
  bucket_size_of (F := float) (of_Q tiny_price) = Some (of_Q 0) /\
  aggregate_liquidations (F := float) [at_tiny] btc_at_tiny = None.
Proof.
  split; [vm_compute; reflexivity|].
  apply (one_bad_bucket_fails_all (F := float) [at_tiny] btc_at_tiny at_tiny).
  - by apply (bool_decide_unpack _).
  - vm_compute. reflexivity.
  - apply list_elem_of_here.
  - vm_compute. reflexivity.
  - intros bs Hbs. vm_compute in Hbs. injection Hbs as <-.
    vm_compute. reflexivity.
Defined.
